(** * Verification of the bc-ts request / pagination / error pipeline

    Shallow embedding of
    - [src/src/error/categorize.ts]            (categorizeError and its tables)
    - [src/unnamed/part_006]                   (the BCError class that
                                                [client.ts] is compiled against)
    - [src/src/client/client.ts]               (the BCClient constructor,
                                                #getToken, request,
                                                requestWithSchema)
    - [src/unnamed/part_011]                   (isValidGUID)
    - [src/unnamed/part_012]                   (parseSchema)
    - [src/src/pages/api-page.ts]              (ApiPage.list, findOne,
                                                delete, action)
    JavaScript values are modelled by [jval]; strings by [String.string]. *)

From Stdlib Require Import String Ascii List ZArith Bool Lia.
Import ListNotations.
Open Scope string_scope.
Open Scope Z_scope.
Set Warnings "-register-all".

(* ------------------------------------------------------------------ *)
(** ** JavaScript values *)

Inductive jval : Type :=
| JUndefined
| JNull
| JBool (b : bool)
| JNum (z : Z)
| JStr (s : string)
| JArr (items : list jval)
| JObj (fields : list (string * jval)).

(** Look a key up in an association list, first binding wins
    (used for JS objects and for [Map.prototype.get]). *)
Fixpoint map_get {A : Type} (k : string) (m : list (string * A)) : option A :=
  match m with
  | [] => None
  | (k', v) :: m' => if String.eqb k k' then Some v else map_get k m'
  end.

(** JS truthiness ([NaN] is not represented). *)
Definition truthy (v : jval) : bool :=
  match v with
  | JUndefined | JNull => false
  | JBool b => b
  | JNum z => negb (Z.eqb z 0)
  | JStr s => negb (String.eqb s "")
  | JArr _ | JObj _ => true
  end.

(** [typeof v === "object"] *)
Definition typeof_object (v : jval) : bool :=
  match v with
  | JNull | JArr _ | JObj _ => true
  | _ => false
  end.

(** [k in v] for an object-typed value. *)
Definition has_key (k : string) (v : jval) : bool :=
  match v with
  | JObj fs => match map_get k fs with Some _ => true | None => false end
  | _ => false
  end.

(** Property read [v[k]]: [None] is the TypeError raised on
    [null]/[undefined]; a missing property reads as [undefined]. *)
Definition get_prop (v : jval) (k : string) : option jval :=
  match v with
  | JUndefined | JNull => None
  | JObj fs => Some (match map_get k fs with Some x => x | None => JUndefined end)
  | _ => Some JUndefined
  end.

Definition is_array (v : jval) : bool :=
  match v with JArr _ => true | _ => false end.

(** [String.prototype.includes] *)
Fixpoint includes (s sub : string) : bool :=
  prefix sub s || match s with
                  | EmptyString => false
                  | String _ s' => includes s' sub
                  end.

(* ------------------------------------------------------------------ *)
(** ** categorize.ts *)

Inductive BCErrorCategory : Type :=
| CLIENT_ERROR | NETWORK_ERROR | NOT_FOUND | CONFLICT | VALIDATION
| AUTHORIZATION | AUTHENTICATION | SERVER_ERROR | BUSINESS_LOGIC
| PARSING_ERROR | UNKNOWN.

Inductive BCErrorSubcategory : Type :=
| TOKEN_ERROR | SUB_NETWORK_ERROR | MALFORMED_REQUEST | INVALID_URL
| SYNTAX_ERROR | INVALID_TOKEN | MISSING_REQUIRED_FIELD | METHOD_NOT_ALLOWED
| METHOD_NOT_IMPLEMENTED | RESOURCE_NOT_FOUND | RECORD_NOT_FOUND
| COMPANY_NOT_FOUND | DUPLICATE_KEY | ENTITY_CHANGED | FIELD_VALIDATION
| STRING_LENGTH_EXCEEDED | INVALID_GUID | INVALID_DATETIME | FILTER_ERROR
| ODATA_TYPE_ERROR | ODATA_PROPERTY_NOT_FOUND | INVALID_TABLE_RELATION
| DATA_ACCESS_ERROR | DATABASE_CONNECTION | TENANT_UNAVAILABLE
| DIALOG_EXCEPTION | CALLBACK_NOT_ALLOWED | EVALUATE_EXCEPTION
| SCHEMA_VALIDATION | UNEXPECTED_RESPONSE_FORMAT.
(* [SUB_NETWORK_ERROR] is [BCErrorSubcategory.NETWORK_ERROR], renamed
   because Rocq constructors share one name space. *)

Inductive BCRetryStrategy : Type :=
| NO_RETRY | IMMEDIATE_RETRY | EXPONENTIAL_BACKOFF | REFRESH_TOKEN.

Record ErrorCodeGroup : Type := mkGroup {
  category : BCErrorCategory;
  subcategory : BCErrorSubcategory;
  retryStrategy : BCRetryStrategy
}.

Definition ERROR_CODE_MAPPINGS : list (string * ErrorCodeGroup) := [
  ("Authentication_TokenRequest", mkGroup AUTHENTICATION TOKEN_ERROR REFRESH_TOKEN);
  ("BadRequest_ResourceNotFound", mkGroup NOT_FOUND RESOURCE_NOT_FOUND NO_RETRY);
  ("BadRequest_NotFound", mkGroup CLIENT_ERROR INVALID_URL NO_RETRY);
  ("BadRequest_InvalidRequestUrl", mkGroup CLIENT_ERROR INVALID_URL NO_RETRY);
  ("BadRequest_InvalidToken", mkGroup CLIENT_ERROR INVALID_TOKEN REFRESH_TOKEN);
  ("BadRequest_InvalidOperation", mkGroup VALIDATION FIELD_VALIDATION NO_RETRY);
  ("BadRequest_RequiredParamNotProvided", mkGroup VALIDATION MISSING_REQUIRED_FIELD NO_RETRY);
  ("BadRequest_MethodNotAllowed", mkGroup CLIENT_ERROR METHOD_NOT_ALLOWED NO_RETRY);
  ("BadRequest_MethodNotImplemented", mkGroup CLIENT_ERROR METHOD_NOT_IMPLEMENTED NO_RETRY);
  ("Request_EntityChanged", mkGroup CONFLICT ENTITY_CHANGED NO_RETRY);
  ("Internal_EntityWithSameKeyExists", mkGroup CONFLICT DUPLICATE_KEY NO_RETRY);
  ("Internal_RecordNotFound", mkGroup NOT_FOUND RECORD_NOT_FOUND NO_RETRY);
  ("Internal_CompanyNotFound", mkGroup NOT_FOUND COMPANY_NOT_FOUND NO_RETRY);
  ("Internal_DataNotFoundFilter", mkGroup NOT_FOUND RECORD_NOT_FOUND NO_RETRY);
  ("Internal_InvalidTableRelation", mkGroup VALIDATION INVALID_TABLE_RELATION NO_RETRY);
  ("Internal_ServerError", mkGroup SERVER_ERROR DATABASE_CONNECTION EXPONENTIAL_BACKOFF);
  ("Internal_TenantUnavailable", mkGroup SERVER_ERROR TENANT_UNAVAILABLE EXPONENTIAL_BACKOFF);
  ("Application_DialogException", mkGroup BUSINESS_LOGIC DIALOG_EXCEPTION NO_RETRY);
  ("Application_FieldValidationException", mkGroup VALIDATION FIELD_VALIDATION NO_RETRY);
  ("Application_StringExceededLength", mkGroup VALIDATION STRING_LENGTH_EXCEEDED NO_RETRY);
  ("Application_InvalidGUID", mkGroup VALIDATION INVALID_GUID NO_RETRY);
  ("Application_FilterErrorException", mkGroup VALIDATION FILTER_ERROR NO_RETRY);
  ("Application_EvaluateException", mkGroup BUSINESS_LOGIC EVALUATE_EXCEPTION NO_RETRY);
  ("Application_CallbackNotAllowed", mkGroup BUSINESS_LOGIC CALLBACK_NOT_ALLOWED NO_RETRY);
  ("Unauthorized", mkGroup AUTHENTICATION INVALID_TOKEN REFRESH_TOKEN)
].

Definition PREFIX_DEFAULTS : list (string * ErrorCodeGroup) := [
  ("BadRequest_", mkGroup CLIENT_ERROR MALFORMED_REQUEST NO_RETRY);
  ("Request_", mkGroup CONFLICT ENTITY_CHANGED NO_RETRY);
  ("Internal_", mkGroup SERVER_ERROR DATABASE_CONNECTION EXPONENTIAL_BACKOFF);
  ("Application_", mkGroup BUSINESS_LOGIC DIALOG_EXCEPTION NO_RETRY);
  ("Authentication_", mkGroup AUTHENTICATION INVALID_TOKEN REFRESH_TOKEN);
  ("Authorization_", mkGroup AUTHORIZATION FIELD_VALIDATION NO_RETRY)
].

Definition GLOBAL_FALLBACK : ErrorCodeGroup :=
  mkGroup UNKNOWN MALFORMED_REQUEST NO_RETRY.

(** [for (const [prefix, m] of PREFIX_DEFAULTS) if (code.startsWith(prefix)) return m] *)
Fixpoint first_prefix (code : string) (ps : list (string * ErrorCodeGroup))
  : option ErrorCodeGroup :=
  match ps with
  | [] => None
  | (p, m) :: ps' => if prefix p code then Some m else first_prefix code ps'
  end.

Definition categorizeError (code : string) : ErrorCodeGroup :=
  match map_get code ERROR_CODE_MAPPINGS with
  | Some exactMatch => exactMatch
  | None =>
      match first_prefix code PREFIX_DEFAULTS with
      | Some defaultMapping => defaultMapping
      | None => GLOBAL_FALLBACK
      end
  end.

(* ------------------------------------------------------------------ *)
(** ** The BCError class ([src/unnamed/part_006]) *)

(** [ErrorResponse = { error: { code: string; message: string } }] *)
Record ErrorResponse : Type := mkErrorResponse {
  er_code : string;
  er_message : string
}.

(** One schema issue [{ message, path }]. *)
Record Issue : Type := mkIssue {
  issue_message : string;
  path : string
}.

(** The fields of a [BCError] instance ([timestamp] and the stack are
    left out: no claim reads them).  There is no [cause] field: the class
    declares none and [super(message)] is called without options. *)
Record BCError : Type := mkBCError {
  name : string;
  message : string;
  code : string;
  httpStatus : Z;
  err_category : BCErrorCategory;
  err_subcategory : BCErrorSubcategory;
  err_retryStrategy : BCRetryStrategy;
  originalError : ErrorResponse;
  correlationId : option string;
  validationDetails : option (list Issue);
  originalResponse : option jval
}.

(** [if (correlationId) this.correlationId = correlationId] *)
Definition set_if_truthy (s : option string) : option string :=
  match s with
  | Some c => if String.eqb c "" then None else Some c
  | None => None
  end.

(** [constructor(errorResponse, httpStatus, correlationId?)] *)
Definition new_BCError (errorResponse : ErrorResponse) (status : Z)
    (corr : option string) : BCError :=
  let msg := if String.eqb (er_message errorResponse) ""
             then "Unknown Business Central error"
             else er_message errorResponse in
  let categorization := categorizeError (er_code errorResponse) in
  {| name := "BCError";
     message := msg;
     code := er_code errorResponse;
     httpStatus := status;
     err_category := category categorization;
     err_subcategory := subcategory categorization;
     err_retryStrategy := retryStrategy categorization;
     originalError := errorResponse;
     correlationId := set_if_truthy corr;
     validationDetails := None;
     originalResponse := None |}.

(** Plain field updates, one per assignment [bcError.f = v]. *)
Definition set_category (c : BCErrorCategory) (e : BCError) : BCError :=
  {| name := name e; message := message e; code := code e;
     httpStatus := httpStatus e; err_category := c;
     err_subcategory := err_subcategory e;
     err_retryStrategy := err_retryStrategy e;
     originalError := originalError e; correlationId := correlationId e;
     validationDetails := validationDetails e;
     originalResponse := originalResponse e |}.

Definition set_subcategory (c : BCErrorSubcategory) (e : BCError) : BCError :=
  {| name := name e; message := message e; code := code e;
     httpStatus := httpStatus e; err_category := err_category e;
     err_subcategory := c;
     err_retryStrategy := err_retryStrategy e;
     originalError := originalError e; correlationId := correlationId e;
     validationDetails := validationDetails e;
     originalResponse := originalResponse e |}.

Definition set_retryStrategy (r : BCRetryStrategy) (e : BCError) : BCError :=
  {| name := name e; message := message e; code := code e;
     httpStatus := httpStatus e; err_category := err_category e;
     err_subcategory := err_subcategory e;
     err_retryStrategy := r;
     originalError := originalError e; correlationId := correlationId e;
     validationDetails := validationDetails e;
     originalResponse := originalResponse e |}.

Definition set_validationDetails (l : list Issue) (e : BCError) : BCError :=
  {| name := name e; message := message e; code := code e;
     httpStatus := httpStatus e; err_category := err_category e;
     err_subcategory := err_subcategory e;
     err_retryStrategy := err_retryStrategy e;
     originalError := originalError e; correlationId := correlationId e;
     validationDetails := Some l;
     originalResponse := originalResponse e |}.

Definition set_originalResponse (d : jval) (e : BCError) : BCError :=
  {| name := name e; message := message e; code := code e;
     httpStatus := httpStatus e; err_category := err_category e;
     err_subcategory := err_subcategory e;
     err_retryStrategy := err_retryStrategy e;
     originalError := originalError e; correlationId := correlationId e;
     validationDetails := validationDetails e;
     originalResponse := Some d |}.

(** [isRetryable()] *)
Definition isRetryable (e : BCError) : bool :=
  match err_retryStrategy e with NO_RETRY => false | _ => true end.

(** [hasValidationDetails()]: [Boolean(this.validationDetails?.length)] *)
Definition hasValidationDetails (e : BCError) : bool :=
  match validationDetails e with
  | Some l => negb (Nat.eqb (length l) 0)
  | None => false
  end.

(** [getValidationFields()]: [validationDetails?.map(d => d.path) || []] *)
Definition getValidationFields (e : BCError) : list string :=
  match validationDetails e with
  | Some l => map path l
  | None => []
  end.

(** [validateErrorResponse]: [None] stands for the thrown [Error]. *)
Definition validateErrorResponse (data : jval) : option ErrorResponse :=
  if negb (truthy data) || negb (typeof_object data) then None else
  match get_prop data "error" with
  | None => None
  | Some err0 =>
      if negb (has_key "error" data) || negb (typeof_object err0) then None else
      let error := if truthy err0 then err0 else JObj [] in
      match get_prop error "code", get_prop error "message" with
      | Some (JStr c), Some (JStr m) =>
          if has_key "code" error && has_key "message" error
          then Some (mkErrorResponse c m) else None
      | _, _ => None
      end
  end.

(** The native error handed to [fromNetworkError]: its [message], its
    optional Node.js [code], and its other own properties ([errno],
    [syscall], ...). *)
Record NetworkError : Type := mkNetworkError {
  ne_message : string;
  ne_code : option string;
  ne_other : list (string * jval)
}.

(** The [switch (nodeError.code)] of [fromNetworkError] ([case] compares
    with [===]). *)
Definition network_switch (c : option string)
  : BCErrorSubcategory * BCRetryStrategy :=
  match c with
  | Some s =>
      if String.eqb s "EAI_NONAME" then (INVALID_URL, EXPONENTIAL_BACKOFF)
      else if String.eqb s "ECONNREFUSED" then (MALFORMED_REQUEST, EXPONENTIAL_BACKOFF)
      else if String.eqb s "ETIMEDOUT" || String.eqb s "ESOCKETTIMEDOUT"
      then (MALFORMED_REQUEST, EXPONENTIAL_BACKOFF)
      else if String.eqb s "ECONNRESET" || String.eqb s "EPIPE"
      then (MALFORMED_REQUEST, EXPONENTIAL_BACKOFF)
      else if String.eqb s "ENOTFOUND" then (INVALID_URL, NO_RETRY)
      else if String.eqb s "CERT_HAS_EXPIRED"
              || String.eqb s "UNABLE_TO_VERIFY_LEAF_SIGNATURE"
              || String.eqb s "SELF_SIGNED_CERT_IN_CHAIN"
      then (MALFORMED_REQUEST, NO_RETRY)
      else (MALFORMED_REQUEST, EXPONENTIAL_BACKOFF)
  | None => (MALFORMED_REQUEST, EXPONENTIAL_BACKOFF)
  end.

Definition network_message (ne : NetworkError) : string :=
  match ne_code ne with
  | Some c =>
      if String.eqb c "" then "Network error: " ++ ne_message ne
      else "Network error (" ++ c ++ "): " ++ ne_message ne
  | None => "Network error: " ++ ne_message ne
  end.

(** [static fromNetworkError(networkError)] *)
Definition fromNetworkError (ne : NetworkError) : BCError :=
  let '(sub, retry) := network_switch (ne_code ne) in
  let errorResponse := mkErrorResponse "Client_NetworkError" (network_message ne) in
  set_retryStrategy retry
    (set_subcategory sub
      (set_category NETWORK_ERROR (new_BCError errorResponse 0 None))).

(** [static fromJsonError(jsonError, httpStatus, correlationId)] *)
Definition fromJsonError (jsonErrorMessage : string) (status : Z)
    (corr : string) : BCError :=
  let errorResponse := mkErrorResponse "Client_JSONParsingError"
        ("Failed to parse JSON response: " ++ jsonErrorMessage) in
  set_retryStrategy NO_RETRY
    (set_subcategory UNEXPECTED_RESPONSE_FORMAT
      (set_category PARSING_ERROR (new_BCError errorResponse status (Some corr)))).

Definition SCHEMA_MISMATCH_MESSAGE : string :=
  "Schema validation failed. The provided schema does not match Business Central's response format.".

(** [static fromParseResult(issues, httpStatus = 200, correlationId?)] *)
Definition fromParseResult (issues : list Issue) (status : Z)
    (corr : option string) : BCError :=
  let errorResponse := mkErrorResponse "Client_SchemaMismatch" SCHEMA_MISMATCH_MESSAGE in
  set_validationDetails issues
    (set_retryStrategy NO_RETRY
      (set_subcategory SCHEMA_VALIDATION
        (set_category CLIENT_ERROR (new_BCError errorResponse status corr)))).

(** [static fromUnexpectedResponse(data, httpStatus, correlationId?)] *)
Definition fromUnexpectedResponse (data : jval) (status : Z)
    (corr : option string) : BCError :=
  let errorResponse := mkErrorResponse "Client_UnexpectedResponseFormat"
        "Business Central returned an unexpected response format" in
  set_originalResponse data
    (set_retryStrategy NO_RETRY
      (set_subcategory UNEXPECTED_RESPONSE_FORMAT
        (set_category PARSING_ERROR (new_BCError errorResponse status corr)))).

(** [static fromHttpResponse(status, data, correlationId)] *)
Definition fromHttpResponse (status : Z) (data : jval) (corr : string) : BCError :=
  match validateErrorResponse data with
  | None => fromUnexpectedResponse data status (Some corr)
  | Some errorResponse => new_BCError errorResponse status (Some corr)
  end.

(* ------------------------------------------------------------------ *)
(** ** client.ts: construction, #getToken and request *)

Definition DEFAULT_TIMEOUT : Z := 30000.
Definition BC_BASE_URL : string := "https://api.businesscentral.dynamics.com/v2.0".
Definition BC_DEFAULT_SCOPE : string := "https://api.businesscentral.dynamics.com/.default".

Record BCConfig : Type := mkBCConfig {
  tenantId : string;
  environment : string;
  companyId : string;
  cfg_timeout : option Z;
  baseURL : option string;
  cfg_userAgent : option string
}.

(** The fields of a constructed [BCClient] (the auth client is passed to
    [request] as part of its environment). *)
Record BCClient : Type := mkBCClient {
  apiPath : string;
  apiURL : string;
  scope : string;
  userAgent : string;
  client_timeout : Z
}.

Definition is_hex (c : ascii) : bool :=
  let n := nat_of_ascii c in
  ((48 <=? n) && (n <=? 57))%nat || ((97 <=? n) && (n <=? 102))%nat
  || ((65 <=? n) && (n <=? 70))%nat.

(** [GUID_REGEX.test]: [/^[0-9a-f]{8}-[0-9a-f]{4}-[0-9a-f]{4}-[0-9a-f]{4}-[0-9a-f]{12}$/i] *)
Definition isValidGUID (str : string) : bool :=
  let fix go (i : nat) (s : string) : bool :=
    match s with
    | EmptyString => Nat.eqb i 36
    | String c s' =>
        (if (Nat.eqb i 8 || Nat.eqb i 13 || Nat.eqb i 18 || Nat.eqb i 23)%bool
         then Ascii.eqb c "-"%char else is_hex c) && go (S i) s'
    end in
  go O str.

Definition z_or (o : option Z) (d : Z) : Z :=
  match o with Some z => if Z.eqb z 0 then d else z | None => d end.

Definition s_or (o : option string) (d : string) : string :=
  match o with Some s => if String.eqb s "" then d else s | None => d end.

(** [parseConfig] followed by the constructor.  [isValidURL] ([URL.parse])
    and [defaultUserAgent()] (read from package.json and [process]) are
    parameters; [None] is the thrown configuration error. *)
Definition new_BCClient (isValidURL : string -> bool) (defaultUserAgent : string)
    (config : BCConfig) (apiPath0 : string) : option BCClient :=
  let bad_url := match baseURL config with
                 | Some u => negb (String.eqb u "") && negb (isValidURL u)
                 | None => false end in
  if bad_url then None
  else if negb (isValidGUID (companyId config)) then None
  else if negb (isValidGUID (tenantId config)) then None
  else if String.eqb (environment config) "" then None
  else
    let base := s_or (baseURL config) BC_BASE_URL in
    Some {| apiPath := apiPath0;
            apiURL := base ++ "/" ++ tenantId config ++ "/" ++ environment config
                      ++ "/api/" ++ apiPath0 ++ "/companies(" ++ companyId config ++ ")";
            scope := BC_DEFAULT_SCOPE;
            userAgent := s_or (cfg_userAgent config) defaultUserAgent;
            client_timeout := z_or (cfg_timeout config) DEFAULT_TIMEOUT |}.

Inductive Method : Type := GET | POST | PATCH | DELETE.

(** [RequestOpts]; [params] is the string returned by [params.toQuery()]. *)
Record RequestOpts : Type := mkRequestOpts {
  method : option Method;
  params : option string;
  payload : option jval;
  timeout : option Z;
  serverPageSize : option Z
}.

Definition no_opts : RequestOpts := mkRequestOpts None None None None None.

(** The [Request] handed to [fetch].  [req_timeout] is the delay of
    [AbortSignal.timeout]; [req_body] is the value given to
    [JSON.stringify]; [req_url] is the URL text and its [search]. *)
Record Request : Type := mkRequest {
  req_url : string * option string;
  req_method : Method;
  req_headers : list (string * string);
  req_timeout : Z;
  req_body : option jval
}.

(** What the token provider's promise settles to.  A rejection is either
    [null]/[undefined] or a value whose [message] property is read. *)
Inductive Rejection : Type :=
| RejNullish
| RejValue (msg : option string) (others : list (string * jval)).

Inductive TokenResult : Type :=
| TokOk (token : string)
| TokReject (r : Rejection).

Inductive JsonBody : Type :=
| JsonOk (v : jval)
| JsonErr (parseErrorMessage : string).

Record Response : Type := mkResponse {
  status : Z;
  resp_headers : list (string * string);
  body : JsonBody
}.

Inductive FetchResult : Type :=
| FetchOk (r : Response)
| FetchErr (ne : NetworkError).

(** The outside world of one [request] call: the auth client and [fetch]. *)
Record Env : Type := mkEnv {
  getToken : string -> TokenResult;
  fetch : Request -> FetchResult
}.

(** How a call settles: resolved with the body, rejected with a [BCError],
    or rejected with a native [TypeError]. *)
Inductive Outcome : Type :=
| Resolved (data : jval)
| Rejected (e : BCError)
| RejectedTypeError.

(** [async #getToken()]: [Some (inl token)], the wrapped [BCError], or
    [None] when the handler itself throws ([err.message] on a nullish
    rejection). *)
Definition getToken_wrapped (env : Env) (c : BCClient)
  : option (string + BCError) :=
  match getToken env (scope c) with
  | TokOk t => Some (inl t)
  | TokReject RejNullish => None
  | TokReject (RejValue m _) =>
      (* an absent [message] is [undefined]; it is stored as "" here, both
         being falsy for the constructor's [message || default]. *)
      let msg := match m with Some s => s | None => "" end in
      Some (inr (new_BCError (mkErrorResponse "Authentication_TokenRequest" msg) 401 None))
  end.

(** [Number.prototype.toString] on integers. *)
Definition digit_char (d : Z) : ascii := ascii_of_nat (48 + Z.to_nat d).

Fixpoint nat_digits (fuel : nat) (n : Z) (acc : string) : string :=
  match fuel with
  | O => acc
  | S f =>
      let acc' := String (digit_char (n mod 10)) acc in
      if n <? 10 then acc' else nat_digits f (n / 10) acc'
  end.

Definition Z_toString (n : Z) : string :=
  if n <? 0 then "-" ++ nat_digits (Z.to_nat (Z.log2 (- n)) + 1) (- n) ""
  else nat_digits (Z.to_nat (Z.log2 n) + 1) n "".

Definition strip_leading_slash (endpoint : string) : string :=
  match endpoint with
  | String "/"%char rest => rest
  | _ => endpoint
  end.

Definition response_ok (st : Z) : bool := (200 <=? st) && (st <=? 299).

(** The [Request] built by [request] once the token is known. *)
Definition build_request (c : BCClient) (endpoint : string) (opts : RequestOpts)
    (token : string) : Request :=
  let m := match method opts with Some m => m | None => GET end in
  let to := match timeout opts with Some t => t | None => 30000 end in
  let url := (apiURL c ++ "/" ++ strip_leading_slash endpoint, params opts) in
  let h0 := [("Authorization", "Bearer " ++ token);
             ("Accepts", "application/json");
             ("Content-Type", "application/json");
             ("User-Agent", userAgent c)] in
  let h1 := match m with GET => app h0 [("Data-Access-Intent", "ReadOnly")] | _ => h0 end in
  let h2 := match m with PATCH => app h1 [("If-Match", "*")] | _ => h1 end in
  let h3 := match serverPageSize opts with
            | Some n => if Z.eqb n 0 then h2
                        else app h2 [("Prefer", "odata.maxpagesize=" ++ Z_toString n)]
            | None => h2 end in
  let b := match payload opts with
           | Some p => if truthy p then Some p else None
           | None => None end in
  {| req_url := url; req_method := m; req_headers := h3;
     req_timeout := to; req_body := b |}.

(** [AbortSignal.timeout(timeout)] takes an [[EnforceRange] unsigned long
    long]: a delay outside [0 .. 2^53 - 1] throws a [TypeError]. *)
Definition abortSignal_timeout_ok (t : Z) : bool :=
  (0 <=? t) && (t <=? 9007199254740991).

(** [new Request(url, init)] throws a [TypeError] when a GET carries a
    body. *)
Definition request_constructible (r : Request) : bool :=
  match req_method r, req_body r with
  | GET, Some _ => false
  | _, _ => true
  end.

(** [async request(endpoint, opts)]: the request passed to [fetch] (if
    any) and how the call settles. *)
Definition request (env : Env) (c : BCClient) (endpoint : string)
    (opts : RequestOpts) : option Request * Outcome :=
  match getToken_wrapped env c with
  | None => (None, RejectedTypeError)
  | Some (inr e) => (None, Rejected e)
  | Some (inl token) =>
      let req := build_request c endpoint opts token in
      if negb (abortSignal_timeout_ok (req_timeout req)) then (None, RejectedTypeError)
      else if negb (request_constructible req) then (None, RejectedTypeError)
      else
      (Some req,
       match fetch env req with
       | FetchErr ne => Rejected (fromNetworkError ne)
       | FetchOk resp =>
           let correlationId := s_or (map_get "request-id" (resp_headers resp)) "" in
           match body resp with
           | JsonErr msg => Rejected (fromJsonError msg (status resp) correlationId)
           | JsonOk data =>
               if negb (response_ok (status resp))
               then Rejected (fromHttpResponse (status resp) data correlationId)
               else Resolved data
           end
       end)
  end.

(* ------------------------------------------------------------------ *)
(** ** The schema-validation factory called by api-page.ts *)

(** Modelled from the spec: [BCError.fromSchemaValidation(issues,
    httpStatus = 200, correlationId?)], called by [ApiPage.list] but absent
    from every [error.ts] under src/.  Spec section 4.1, "From schema
    validation issues": category SCHEMA_MISMATCH, NO_RETRY,
    [validationDetails] = issues, a fixed message (the text asserted by
    [error.test.ts]); [responseData] is the property [ApiPage.list]
    assigns afterwards ([err.responseData = data]). *)
Record SchemaError : Type := mkSchemaError {
  se_message : string;
  se_category : string;
  se_retryStrategy : BCRetryStrategy;
  se_httpStatus : Z;
  se_validationDetails : list Issue;
  se_responseData : option jval
}.

Definition fromSchemaValidation (issues : list Issue) : SchemaError :=
  {| se_message := SCHEMA_MISMATCH_MESSAGE;
     se_category := "SCHEMA_MISMATCH";
     se_retryStrategy := NO_RETRY;
     se_httpStatus := 200;
     se_validationDetails := issues;
     se_responseData := None |}.

Definition with_responseData (d : jval) (e : SchemaError) : SchemaError :=
  {| se_message := se_message e; se_category := se_category e;
     se_retryStrategy := se_retryStrategy e; se_httpStatus := se_httpStatus e;
     se_validationDetails := se_validationDetails e;
     se_responseData := Some d |}.

(* ------------------------------------------------------------------ *)
(** ** api-page.ts: ApiPage.list *)

Record PaginationOpts : Type := mkPaginationOpts {
  maxResults : option Z;
  serverPageLimit : option Z
}.

(** The options [list] passes to [client.request]: the page-size hint
    and the [URLSearchParams] as a list of pairs. *)
Record ListRequestOpts : Type := mkListRequestOpts {
  lr_serverPageSize : option Z;
  lr_params : list (string * string)
}.

(** Result of [parseSchema(schema, item)]. *)
Inductive ParseResult : Type :=
| PData (d : jval)
| PIssues (issues : list Issue).

(** Observable steps of the generator: a call to [client.request], a
    [yield]. *)
Inductive ListEvent : Type :=
| EvRequest (opts : ListRequestOpts)
| EvYield (d : jval).

Section ApiPageList.
(** What a thrown error of [client.request] is. *)
Variable ReqError : Type.

(** [client.request(endpoint, opts)] as the list sees it: the parsed
    body or a thrown error.  [ApiPage.list] is written against a client
    whose [params] is a [URLSearchParams]; the endpoint is abstract. *)
Variable client_request : string -> ListRequestOpts -> jval + ReqError.
(** [new URLSearchParams(query)] *)
Variable URLSearchParams_of : option string -> list (string * string).
(** [URL.parse(link)?.searchParams.get("skipToken")] *)
Variable link_skipToken : jval -> option string.
(** [parseSchema(this.#schema, item)] *)
Variable validate : jval -> ParseResult.

(** How the iteration ends; [LFuel] only when the bound on pages given
    to the model runs out. *)
Inductive ListOutcome : Type :=
| LDone
| LThrowReq (e : ReqError)
| LThrowSchema (e : SchemaError)
| LTypeError
| LFuel.

Definition MISSING_VALUE_ISSUE : Issue :=
  mkIssue "Missing value property on list response." "root.value".

Definition missing_value_error (data : jval) : SchemaError :=
  with_responseData data (fromSchemaValidation [MISSING_VALUE_ISSUE]).

(** [pOpts?.maxResults && itemCount >= pOpts.maxResults] *)
Definition cap_reached (pOpts : option PaginationOpts) (itemCount : Z) : bool :=
  match pOpts with
  | Some po => match maxResults po with
               | Some m => negb (Z.eqb m 0) && (m <=? itemCount)
               | None => false
               end
  | None => false
  end.

(** The inner [for (const item of data.value)] loop: [inl n] when the
    page is exhausted with counter [n] ([while (more)] goes on),
    [inr o] when the generator ends with [o]. *)
Fixpoint page_items (pOpts : option PaginationOpts) (items : list jval)
    (itemCount : Z) : list ListEvent * (Z + ListOutcome) :=
  match items with
  | [] => ([], inl itemCount)
  | item :: rest =>
      match validate item with
      | PIssues issues => ([], inr (LThrowSchema (fromSchemaValidation issues)))
      | PData d =>
          let itemCount' := itemCount + 1 in
          if cap_reached pOpts itemCount'
          then ([EvYield d], inr LDone)
          else let '(evs, r) := page_items pOpts rest itemCount' in
               (EvYield d :: evs, r)
      end
  end.

(** The cursor after a page: the link's [skipToken] (or "") when the
    link is truthy, the old cursor otherwise. *)
Definition next_cursor (data : jval) (skipToken : string) : string :=
  match get_prop data "@odata.nextLink" with
  | Some link =>
      if truthy link
      then match link_skipToken link with Some t => t | None => "" end
      else skipToken
  | None => skipToken
  end.

Definition list_opts (query : option string) (pOpts : option PaginationOpts)
    (skipToken : string) : ListRequestOpts :=
  let base := URLSearchParams_of query in
  {| lr_serverPageSize := match pOpts with Some po => serverPageLimit po | None => None end;
     lr_params := if String.eqb skipToken "" then base
                  else app base [("$skipToken", skipToken)] |}.

(** One turn of [while (more)] per unit of [fuel]. *)
Fixpoint list_loop (endpoint : string) (query : option string)
    (pOpts : option PaginationOpts) (fuel : nat) (skipToken : string)
    (itemCount : Z) : list ListEvent * ListOutcome :=
  match fuel with
  | O => ([], LFuel)
  | S fuel' =>
      let opts := list_opts query pOpts skipToken in
      let '(evs, out) :=
        match client_request endpoint opts with
        | inr e => ([], LThrowReq e)
        | inl data =>
            match get_prop data "value" with
            | None => ([], LTypeError)
            | Some v =>
                if negb (truthy v) || negb (is_array v)
                then ([], LThrowSchema (missing_value_error data))
                else
                  let skipToken' := next_cursor data skipToken in
                  let items := match v with JArr l => l | _ => [] end in
                  if Nat.eqb (length items) 0 then ([], LDone)
                  else
                    let '(evs1, r) := page_items pOpts items itemCount in
                    match r with
                    | inr o => (evs1, o)
                    | inl itemCount' =>
                        let '(evs2, o) := list_loop endpoint query pOpts fuel'
                                            skipToken' itemCount' in
                        (app evs1 evs2, o)
                    end
            end
        end in
      (EvRequest opts :: evs, out)
  end.

(** [list(query, pOpts)]: the cursor starts empty, the counter at 0. *)
Definition ApiPage_list (endpoint : string) (query : option string)
    (pOpts : option PaginationOpts) (fuel : nat) : list ListEvent * ListOutcome :=
  list_loop endpoint query pOpts fuel "" 0.
End ApiPageList.

Arguments LDone {ReqError}.
Arguments LThrowReq {ReqError} e.
Arguments LThrowSchema {ReqError} e.
Arguments LTypeError {ReqError}.
Arguments LFuel {ReqError}.

Definition yields (evs : list ListEvent) : list jval :=
  flat_map (fun ev => match ev with EvYield d => [d] | _ => [] end) evs.

Definition request_count (evs : list ListEvent) : nat :=
  length (filter (fun ev => match ev with EvRequest _ => true | _ => false end) evs).

(* ------------------------------------------------------------------ *)
(** ** Reference tables and scenarios used by the statements *)

Scheme Equality for BCRetryStrategy.
Scheme Equality for BCErrorCategory.

(** The category names as the code spells them ([BCErrorCategory.X = "X"]). *)
Definition category_name (c : BCErrorCategory) : string :=
  match c with
  | CLIENT_ERROR => "CLIENT_ERROR" | NETWORK_ERROR => "NETWORK_ERROR"
  | NOT_FOUND => "NOT_FOUND" | CONFLICT => "CONFLICT"
  | VALIDATION => "VALIDATION" | AUTHORIZATION => "AUTHORIZATION"
  | AUTHENTICATION => "AUTHENTICATION" | SERVER_ERROR => "SERVER_ERROR"
  | BUSINESS_LOGIC => "BUSINESS_LOGIC" | PARSING_ERROR => "PARSING_ERROR"
  | UNKNOWN => "UNKNOWN"
  end.

(** The spec's category-to-strategy table: AUTHENTICATION to REFRESH_TOKEN,
    SERVER_ERROR and NETWORK_ERROR to EXPONENTIAL_BACKOFF, the rest to
    NO_RETRY. *)
Definition spec_retry_of_category (c : BCErrorCategory) : BCRetryStrategy :=
  match c with
  | AUTHENTICATION => REFRESH_TOKEN
  | SERVER_ERROR | NETWORK_ERROR => EXPONENTIAL_BACKOFF
  | _ => NO_RETRY
  end.

(** The spec's lookup order: exact match, else the longest applicable
    prefix default, else UNKNOWN. *)
Fixpoint longest_applicable (code : string) (ps : list (string * ErrorCodeGroup))
  : option (string * ErrorCodeGroup) :=
  match ps with
  | [] => None
  | (p, m) :: ps' =>
      let rest := longest_applicable code ps' in
      if prefix p code then
        match rest with
        | Some (p', m') => if (String.length p <? String.length p')%nat
                           then Some (p', m') else Some (p, m)
        | None => Some (p, m)
        end
      else rest
  end.

Definition spec_categorize (code : string) : ErrorCodeGroup :=
  match map_get code ERROR_CODE_MAPPINGS with
  | Some g => g
  | None =>
      match longest_applicable code PREFIX_DEFAULTS with
      | Some (_, g) => g
      | None => mkGroup UNKNOWN MALFORMED_REQUEST NO_RETRY
      end
  end.

(** The native codes for which [fromNetworkError] picks NO_RETRY. *)
Definition network_no_retry_code (c : option string) : bool :=
  match c with
  | Some s => String.eqb s "ENOTFOUND" || String.eqb s "CERT_HAS_EXPIRED"
              || String.eqb s "UNABLE_TO_VERIFY_LEAF_SIGNATURE"
              || String.eqb s "SELF_SIGNED_CERT_IN_CHAIN"
  | None => false
  end.

(** [isSchemaMismatch()] *)
Definition isSchemaMismatch (e : BCError) : bool :=
  String.eqb (code e) "Client_SchemaMismatch" || hasValidationDetails e.

Definition with_client_timeout (c : BCClient) (t : Z) : BCClient :=
  {| apiPath := apiPath c; apiURL := apiURL c; scope := scope c;
     userAgent := userAgent c; client_timeout := t |}.

(** A mock collection endpoint: page k (k = 1..5) holds items 2k-1, 2k
    of [its] and links to page k+1 through a [skipToken] parameter;
    page 6 has [value: []]. *)
Definition mock_link (k : Z) : jval :=
  JStr ("https://mock.test/items?skipToken=" ++ Z_toString k).

Definition mock_page (its : list jval) (k : Z) : jval :=
  if (1 <=? k) && (k <=? 5) then
    JObj [("value", JArr (firstn 2 (skipn (2 * (Z.to_nat k - 1)) its)));
          ("@odata.nextLink", mock_link (k + 1))]
  else JObj [("value", JArr [])].

Definition mock_page_of_token (t : string) : Z :=
  if String.eqb t (Z_toString 2) then 2
  else if String.eqb t (Z_toString 3) then 3
  else if String.eqb t (Z_toString 4) then 4
  else if String.eqb t (Z_toString 5) then 5
  else 6.

Definition mock_endpoint (its : list jval) (_ : string) (o : ListRequestOpts)
  : jval + unit :=
  match map_get "$skipToken" (lr_params o) with
  | None => inl (mock_page its 1)
  | Some t => inl (mock_page its (mock_page_of_token t))
  end.

(** A small [searchParams.get] on absolute URLs: the text after the
    first '?', split on '&', each pair split on its first '='. *)
Fixpoint split_on (c : ascii) (s : string) : Datatypes.list string :=
  match s with
  | EmptyString => [""]
  | String a s' =>
      if Ascii.eqb a c then "" :: split_on c s'
      else match split_on c s' with
           | [] => [String a ""]
           | w :: ws => String a w :: ws
           end
  end.

Fixpoint after_char (c : ascii) (s : string) : option string :=
  match s with
  | EmptyString => None
  | String a s' => if Ascii.eqb a c then Some s' else after_char c s'
  end.

Definition kv_of (w : string) : string * string :=
  match split_on "="%char w with
  | [] => ("", "")
  | k :: vs => (k, match after_char "="%char w with Some v => v | None => "" end)
  end.

Definition url_skipToken (v : jval) : option string :=
  match v with
  | JStr s => match after_char "?"%char s with
              | Some q => map_get "skipToken" (map kv_of (split_on "&"%char q))
              | None => None
              end
  | _ => None
  end.

(** A constructed client and two environments: a token provider that
    succeeds and one that rejects with [r]; [fetch] answers 200 with an
    empty object. *)
Definition sample_client : BCClient :=
  {| apiPath := "v2.0";
     apiURL := "https://api.businesscentral.dynamics.com/v2.0/t/SANDBOX/api/v2.0/companies(c)";
     scope := BC_DEFAULT_SCOPE; userAgent := "bc-ts/0.1.0"; client_timeout := 5000 |}.

Definition ok_fetch (_ : Request) : FetchResult :=
  FetchOk (mkResponse 200 [("request-id", "r-1")] (JsonOk (JObj []))).

Definition token_env : Env := mkEnv (fun _ => TokOk "tok") ok_fetch.

(** A configuration with GUIDs in both cases and no optional field. *)
Definition sample_config : BCConfig :=
  mkBCConfig "6f0c3c5e-1d2b-4c3a-9e8f-0a1b2c3d4e5f" "Production"
             "A1B2C3D4-E5F6-47A8-89B0-C1D2E3F4A5B6" None None None.


Definition rejecting_env (r : Rejection) : Env :=
  mkEnv (fun _ => TokReject r) ok_fetch.

(* ------------------------------------------------------------------ *)
(** ** BCError: logging and telemetry helpers *)

(** The values of [BCErrorSubcategory] ([X: "X"]). *)
Definition subcategory_name (c : BCErrorSubcategory) : string :=
  match c with
  | TOKEN_ERROR => "TOKEN_ERROR" | SUB_NETWORK_ERROR => "NETWORK_ERROR"
  | MALFORMED_REQUEST => "MALFORMED_REQUEST" | INVALID_URL => "INVALID_URL"
  | SYNTAX_ERROR => "SYNTAX_ERROR" | INVALID_TOKEN => "INVALID_TOKEN"
  | MISSING_REQUIRED_FIELD => "MISSING_REQUIRED_FIELD"
  | METHOD_NOT_ALLOWED => "METHOD_NOT_ALLOWED"
  | METHOD_NOT_IMPLEMENTED => "METHOD_NOT_IMPLEMENTED"
  | RESOURCE_NOT_FOUND => "RESOURCE_NOT_FOUND" | RECORD_NOT_FOUND => "RECORD_NOT_FOUND"
  | COMPANY_NOT_FOUND => "COMPANY_NOT_FOUND" | DUPLICATE_KEY => "DUPLICATE_KEY"
  | ENTITY_CHANGED => "ENTITY_CHANGED" | FIELD_VALIDATION => "FIELD_VALIDATION"
  | STRING_LENGTH_EXCEEDED => "STRING_LENGTH_EXCEEDED" | INVALID_GUID => "INVALID_GUID"
  | INVALID_DATETIME => "INVALID_DATETIME" | FILTER_ERROR => "FILTER_ERROR"
  | ODATA_TYPE_ERROR => "ODATA_TYPE_ERROR"
  | ODATA_PROPERTY_NOT_FOUND => "ODATA_PROPERTY_NOT_FOUND"
  | INVALID_TABLE_RELATION => "INVALID_TABLE_RELATION"
  | DATA_ACCESS_ERROR => "DATA_ACCESS_ERROR" | DATABASE_CONNECTION => "DATABASE_CONNECTION"
  | TENANT_UNAVAILABLE => "TENANT_UNAVAILABLE" | DIALOG_EXCEPTION => "DIALOG_EXCEPTION"
  | CALLBACK_NOT_ALLOWED => "CALLBACK_NOT_ALLOWED"
  | EVALUATE_EXCEPTION => "EVALUATE_EXCEPTION" | SCHEMA_VALIDATION => "SCHEMA_VALIDATION"
  | UNEXPECTED_RESPONSE_FORMAT => "UNEXPECTED_RESPONSE_FORMAT"
  end.

(** The values of [BCRetryStrategy]. *)
Definition retry_name (r : BCRetryStrategy) : string :=
  match r with
  | NO_RETRY => "NO_RETRY" | IMMEDIATE_RETRY => "IMMEDIATE_RETRY"
  | EXPONENTIAL_BACKOFF => "EXPONENTIAL_BACKOFF" | REFRESH_TOKEN => "REFRESH_TOKEN"
  end.



(** A value of the object built by [toLogObject()]; [LUndef] is a key
    present with value [undefined] ([correlationId] when unset). *)
Inductive logval : Type :=
| LStr (s : string)
| LNum (z : Z)
| LUndef
| LErrorResponse (er : ErrorResponse)
| LIssues (l : list Issue).

(** [toLogObject()]; [timestampISO] is [this.timestamp.toISOString()],
    fixed when the error was constructed. *)
Definition toLogObject (timestampISO : string) (e : BCError) : list (string * logval) :=
  let baseLog :=
    [("name", LStr (name e)); ("message", LStr (message e)); ("code", LStr (code e));
     ("category", LStr (category_name (err_category e)));
     ("subcategory", LStr (subcategory_name (err_subcategory e)));
     ("httpStatus", LNum (httpStatus e));
     ("retryStrategy", LStr (retry_name (err_retryStrategy e)));
     ("correlationId", match correlationId e with Some c => LStr c | None => LUndef end);
     ("timestamp", LStr timestampISO);
     ("originalError", LErrorResponse (originalError e))] in
  match validationDetails e with
  | Some l => app baseLog [("validationDetails", LIssues l);
                           ("validationCount", LNum (Z.of_nat (length l)))]
  | None => baseLog
  end.

(* ------------------------------------------------------------------ *)
(** ** client.ts: requestWithSchema; api-page.ts: delete, action, findOne *)

(** [requestWithSchema(endpoint, schema, opts)]: [validate] is
    [parseSchema(schema, .)] on the whole body. *)
Definition requestWithSchema (env : Env) (c : BCClient) (endpoint : string)
    (validate : jval -> ParseResult) (opts : RequestOpts) : option Request * Outcome :=
  let '(req, out) := request env c endpoint opts in
  (req, match out with
        | Resolved data =>
            match validate data with
            | PData d => Resolved d
            | PIssues issues => Rejected (fromParseResult issues 200 None)
            end
        | o => o
        end).




(** The events a consumer sees when it leaves a [for await] loop at the
    first item ([break] ends the generator): the prefix up to and with
    the first [yield], and that item. *)
Fixpoint until_first_yield (evs : list ListEvent) : list ListEvent * option jval :=
  match evs with
  | [] => ([], None)
  | EvYield d :: _ => ([EvYield d], Some d)
  | ev :: rest => let '(p, r) := until_first_yield rest in (ev :: p, r)
  end.

(** [findOne(query)]: [inl (Some d)] is the first item, [inl None] is
    [null], [inr o] an error the iterator threw before any item. *)
Definition findOne {R : Type} (creq : string -> ListRequestOpts -> jval + R)
    (Uq : option string -> list (string * string)) (lsk : jval -> option string)
    (validate : jval -> ParseResult) (endpoint query : string) (fuel : nat)
  : list ListEvent * (option jval + ListOutcome R) :=
  let '(evs, out) := ApiPage_list R creq Uq lsk validate endpoint (Some query)
                       (Some (mkPaginationOpts None (Some 1))) fuel in
  match until_first_yield evs with
  | (p, Some d) => (p, inl (Some d))
  | (p, None) => (p, match out with LDone => inl None | o => inr o end)
  end.

(* ------------------------------------------------------------------ *)
(** ** validation/parse-schema.ts *)

(** A segment of a Standard Schema issue path: a property key (given
    here as its [String(segment)]) or a [{ key }] object. *)
Inductive PathSegment : Type :=
| PSKey (k : string)
| PSObj (key : string).

Record StdIssue : Type := mkStdIssue {
  si_message : string;
  si_path : option (list PathSegment)
}.

(** What [schema["~standard"].validate(input)] resolves to. *)
Inductive StdResult : Type :=
| StdValue (v : jval)
| StdIssues (issues : list StdIssue).

Definition segment_string (s : PathSegment) : string :=
  match s with
  | PSKey k => k
  | PSObj key => key
  end.

(** [Array.prototype.join(".")] *)
Fixpoint join_dot (l : list string) : string :=
  match l with
  | [] => ""
  | [x] => x
  | x :: rest => x ++ "." ++ join_dot rest
  end.

(** [pathSegments.join(".") || "root"] with [issue.path?.map(...) || []]. *)
Definition issue_path (p : option (list PathSegment)) : string :=
  let j := join_dot (map segment_string (match p with Some l => l | None => [] end)) in
  if String.eqb j "" then "root" else j.

(** [parseSchema(schema, input)]. *)
Definition parseSchema (validate_std : jval -> StdResult) (input : jval) : ParseResult :=
  match validate_std input with
  | StdValue v => PData v
  | StdIssues iss =>
      PIssues (map (fun i => mkIssue (si_message i) (issue_path (si_path i))) iss)
  end.

(* ================================================================== *)
(** * Properties *)

(** ** Helper lemmas *)

(** Case split on the two checks [request] makes before [fetch]. *)
Ltac request_checks :=
  repeat match goal with
  | H : context [if negb ?b then _ else _] |- _ =>
      let E := fresh "Echk" in destruct b eqn:E; cbn [negb] in H
  | |- context [if negb ?b then _ else _] =>
      let E := fresh "Echk" in destruct b eqn:E; cbn [negb]
  end.

Lemma prefix_app_inv : forall p s, prefix p s = true -> exists t, s = p ++ t.
Proof.
  induction p as [|a p IH]; intros s H.
  - exists s. reflexivity.
  - destruct s as [|b s]; simpl in H; [discriminate|].
    destruct (ascii_dec a b) as [->|]; [|discriminate].
    destruct (IH s H) as [t ->]. exists t. reflexivity.
Qed.

Lemma prefix_app : forall p t, prefix p (p ++ t) = true.
Proof.
  induction p as [|a p IH]; intros t; simpl.
  - destruct t; reflexivity.
  - destruct (ascii_dec a a) as [_|n]; [apply IH|contradiction].
Qed.

Lemma map_get_In : forall {A} k (m : list (string * A)) v,
  map_get k m = Some v -> In (k, v) m.
Proof.
  intros A k m v. induction m as [|[k' v'] m IH]; simpl; [discriminate|].
  destruct (String.eqb_spec k k') as [->|_]; intros H.
  - inversion H; subst. left. reflexivity.
  - right. apply IH, H.
Qed.

Lemma first_prefix_In : forall code ps g,
  first_prefix code ps = Some g -> exists p, In (p, g) ps.
Proof.
  intros code ps g. induction ps as [|[p m] ps IH]; simpl; [discriminate|].
  destruct (prefix p code); intros H.
  - inversion H; subst. exists p. left. reflexivity.
  - destruct (IH H) as [p' Hp']. exists p'. right. exact Hp'.
Qed.

(** At most one prefix default applies to a code, so the first one found
    is the longest applicable one. *)
Lemma first_prefix_longest : forall code,
  first_prefix code PREFIX_DEFAULTS
  = option_map snd (longest_applicable code PREFIX_DEFAULTS).
Proof.
  intros code. unfold PREFIX_DEFAULTS.
  destruct (prefix "BadRequest_" code) eqn:E1;
    [apply prefix_app_inv in E1; destruct E1 as [t ->]; destruct t; reflexivity|].
  destruct (prefix "Request_" code) eqn:E2;
    [apply prefix_app_inv in E2; destruct E2 as [t ->]; destruct t; reflexivity|].
  destruct (prefix "Internal_" code) eqn:E3;
    [apply prefix_app_inv in E3; destruct E3 as [t ->]; destruct t; reflexivity|].
  destruct (prefix "Application_" code) eqn:E4;
    [apply prefix_app_inv in E4; destruct E4 as [t ->]; destruct t; reflexivity|].
  destruct (prefix "Authentication_" code) eqn:E5;
    [apply prefix_app_inv in E5; destruct E5 as [t ->]; destruct t; reflexivity|].
  destruct (prefix "Authorization_" code) eqn:E6;
    [apply prefix_app_inv in E6; destruct E6 as [t ->]; destruct t; reflexivity|].
  simpl. rewrite E1, E2, E3, E4, E5, E6. reflexivity.
Qed.

Lemma network_switch_retry : forall c,
  snd (network_switch c)
  = if network_no_retry_code c then NO_RETRY else EXPONENTIAL_BACKOFF.
Proof.
  intros [s|]; [|reflexivity]. unfold network_switch, network_no_retry_code.
  repeat match goal with
         | |- context [String.eqb s ?lit] =>
             destruct (String.eqb_spec s lit); [subst; reflexivity|]
         end.
  reflexivity.
Qed.

(** ** C2: categorizeError *)

(** C2: for every code string, [categorizeError] returns the exact-match
    entry when there is one, else the default of the longest applicable
    prefix, else UNKNOWN with NO_RETRY; it is a total function. *)
Theorem categorizeError_lookup_order : forall code,
  categorizeError code = spec_categorize code
  /\ (map_get code ERROR_CODE_MAPPINGS = None ->
      longest_applicable code PREFIX_DEFAULTS = None ->
      category (categorizeError code) = UNKNOWN
      /\ retryStrategy (categorizeError code) = NO_RETRY).
Proof.
  intros code. unfold categorizeError, spec_categorize.
  rewrite first_prefix_longest. split.
  - destruct (map_get code ERROR_CODE_MAPPINGS); [reflexivity|].
    destruct (longest_applicable code PREFIX_DEFAULTS) as [[p g]|]; reflexivity.
  - intros E1 E2. rewrite E1, E2. split; reflexivity.
Qed.

Lemma categorizeError_lookup_order_witness :
  (map_get "SomeUnknown_ErrorCode" ERROR_CODE_MAPPINGS = None
   /\ longest_applicable "SomeUnknown_ErrorCode" PREFIX_DEFAULTS = None)
  /\ category (categorizeError "SomeUnknown_ErrorCode") = UNKNOWN
  /\ retryStrategy (categorizeError "SomeUnknown_ErrorCode") = NO_RETRY.
Proof.
  split; [split; reflexivity|].
  apply (proj2 (categorizeError_lookup_order "SomeUnknown_ErrorCode")); reflexivity.
Defined.

(** ** C1: retry strategy versus category *)

(** C1 (as stated, refuted): an HTTP error with the vendor code
    [BadRequest_InvalidToken] is CLIENT_ERROR but REFRESH_TOKEN, not the
    NO_RETRY of the category table. *)
Lemma retry_table_counterexample :
  let e := fromHttpResponse 401
             (JObj [("error", JObj [("code", JStr "BadRequest_InvalidToken");
                                    ("message", JStr "Invalid token")])]) "corr-1" in
  err_category e = CLIENT_ERROR /\ err_retryStrategy e = REFRESH_TOKEN
  /\ err_retryStrategy e <> spec_retry_of_category (err_category e).
Proof. simpl. split; [reflexivity|split; [reflexivity|discriminate]]. Qed.

Lemma mapping_entries_retry : forall k g, In (k, g) ERROR_CODE_MAPPINGS ->
  retryStrategy g = spec_retry_of_category (category g) \/ k = "BadRequest_InvalidToken".
Proof.
  intros k g H. simpl in H.
  repeat (destruct H as [H|H]; [inversion H; subst; (left; reflexivity) || (right; reflexivity)|]).
  destruct H.
Qed.

Lemma prefix_entries_retry : forall p g, In (p, g) PREFIX_DEFAULTS ->
  retryStrategy g = spec_retry_of_category (category g).
Proof.
  intros p g H. simpl in H.
  repeat (destruct H as [H|H]; [inversion H; subst; reflexivity|]).
  destruct H.
Qed.

Lemma categorizeError_retry : forall c,
  retryStrategy (categorizeError c) = spec_retry_of_category (category (categorizeError c))
  \/ c = "BadRequest_InvalidToken".
Proof.
  intros c. unfold categorizeError.
  destruct (map_get c ERROR_CODE_MAPPINGS) as [g|] eqn:E.
  - apply map_get_In in E. apply (mapping_entries_retry c g E).
  - left. destruct (first_prefix c PREFIX_DEFAULTS) as [g|] eqn:F; [|reflexivity].
    destruct (first_prefix_In _ _ _ F) as [p Hp]. apply (prefix_entries_retry p g Hp).
Qed.

(** C1 (amended): the strategy is stored per table entry and per switch
    case.  It agrees with the category table for every categorizeError
    result and every HTTP-response error, except the vendor code
    [BadRequest_InvalidToken] (CLIENT_ERROR, REFRESH_TOKEN); the JSON-parse,
    schema-validation and unexpected-response factories agree with the
    table; a network error is NETWORK_ERROR, with the table's
    EXPONENTIAL_BACKOFF for every native code outside the switch's
    NO_RETRY cases (those cases are the defect of C3 and are not stated
    here). *)
Theorem retry_strategy_by_factory :
  (forall c, let g := categorizeError c in
     retryStrategy g = spec_retry_of_category (category g)
     \/ c = "BadRequest_InvalidToken")
  /\ (forall st d corr, let e := fromHttpResponse st d corr in
     err_retryStrategy e = spec_retry_of_category (err_category e)
     \/ code e = "BadRequest_InvalidToken")
  /\ (forall ne, let e := fromNetworkError ne in
     err_category e = NETWORK_ERROR
     /\ (network_no_retry_code (ne_code ne) = false ->
         err_retryStrategy e = spec_retry_of_category (err_category e)))
  /\ (forall m st corr, let e := fromJsonError m st corr in
     err_retryStrategy e = spec_retry_of_category (err_category e))
  /\ (forall issues st corr, let e := fromParseResult issues st corr in
     err_retryStrategy e = spec_retry_of_category (err_category e))
  /\ (forall d st corr, let e := fromUnexpectedResponse d st corr in
     err_retryStrategy e = spec_retry_of_category (err_category e)).
Proof.
  cbv zeta. split; [exact categorizeError_retry|].
  split.
  - intros st d corr. unfold fromHttpResponse.
    destruct (validateErrorResponse d) as [er|]; [|left; reflexivity].
    apply (categorizeError_retry (er_code er)).
  - split; [|split; [|split]]; intros; try reflexivity.
    unfold fromNetworkError.
    pose proof (network_switch_retry (ne_code ne)) as H.
    destruct (network_switch (ne_code ne)) as [sub r]. simpl in *.
    split; [reflexivity|]. intros Hn. rewrite H, Hn. reflexivity.
Qed.

(** ** C3: network errors *)

(** C3 (code bug): for the failure of the test "categorizes all network
    errors as retryable" (code [ENOTFOUND]), [fromNetworkError] gives
    NO_RETRY, so [isRetryable()] is false, where the spec and the test
    require EXPONENTIAL_BACKOFF; and the error is built from the code and
    the message alone, so two failures that differ in every other property
    give the same error: the original error is not kept as a cause. *)
Lemma network_retry_counterexample :
  let ne := mkNetworkError "getaddrinfo ENOTFOUND api.businesscentral.dynamics.com"
                           (Some "ENOTFOUND") [] in
  let e := fromNetworkError ne in
  err_category e = NETWORK_ERROR /\ httpStatus e = 0
  /\ includes (message e) "ENOTFOUND" = true
  /\ err_retryStrategy e = NO_RETRY /\ err_retryStrategy e <> EXPONENTIAL_BACKOFF
  /\ isRetryable e = false
  /\ fromNetworkError (mkNetworkError (ne_message ne) (ne_code ne)
                        [("errno", JNum (-3008)); ("syscall", JStr "getaddrinfo")]) = e.
Proof.
  cbv zeta. split; [reflexivity|]. split; [reflexivity|]. split; [vm_compute; reflexivity|].
  split; [reflexivity|]. split; [discriminate|]. split; reflexivity.
Qed.

(** ** C4: payload fields *)

(** C4 (as stated, refuted): a network error carries neither payload:
    its [originalError] is the synthetic [Client_NetworkError] envelope
    built by the factory, not an envelope sent by the server, no raw body is
    kept, and it has no [validationDetails]; so "exactly one of the two" does
    not hold for every factory. *)
Lemma payload_fields_counterexample :
  let e := fromNetworkError (mkNetworkError "connect ECONNREFUSED 127.0.0.1:443"
                                            (Some "ECONNREFUSED") []) in
  er_code (originalError e) = "Client_NetworkError"
  /\ originalResponse e = None /\ validationDetails e = None.
Proof. repeat split; reflexivity. Qed.

(** C4 (amended): no factory keeps both the server's envelope and the raw
    body.  An HTTP error keeps exactly one: the server's envelope (as
    [originalError]) when the body validates, with no raw body; otherwise
    the raw body (as [originalResponse]), with only the factory's own
    [Client_UnexpectedResponseFormat] envelope.  The unexpected-response
    factory keeps the raw body.  The network, JSON and schema factories
    keep neither: their envelope is the factory's own and no raw body is
    kept.  Only the schema factory sets [validationDetails]. *)
Theorem error_payload_fields :
  (forall st d corr, let e := fromHttpResponse st d corr in
     validationDetails e = None
     /\ match validateErrorResponse d with
        | Some er => originalError e = er /\ originalResponse e = None
        | None => er_code (originalError e) = "Client_UnexpectedResponseFormat"
                  /\ originalResponse e = Some d
        end)
  /\ (forall ne, let e := fromNetworkError ne in
     er_code (originalError e) = "Client_NetworkError"
     /\ originalResponse e = None /\ validationDetails e = None)
  /\ (forall m st corr, let e := fromJsonError m st corr in
     er_code (originalError e) = "Client_JSONParsingError"
     /\ originalResponse e = None /\ validationDetails e = None)
  /\ (forall issues st corr, let e := fromParseResult issues st corr in
     er_code (originalError e) = "Client_SchemaMismatch"
     /\ originalResponse e = None /\ validationDetails e = Some issues)
  /\ (forall d st corr, let e := fromUnexpectedResponse d st corr in
     er_code (originalError e) = "Client_UnexpectedResponseFormat"
     /\ originalResponse e = Some d /\ validationDetails e = None).
Proof.
  cbv zeta. split.
  - intros st d corr. unfold fromHttpResponse.
    destruct (validateErrorResponse d); repeat split; reflexivity.
  - split; [|split; [|split]]; intros.
    + unfold fromNetworkError. destruct (network_switch (ne_code ne)).
      repeat split; reflexivity.
    + repeat split; reflexivity.
    + repeat split; reflexivity.
    + repeat split; reflexivity.
Qed.

(** ** C9: schema-validation errors *)

(** C9 (as stated, refuted): the schema-issues factory files the error
    under CLIENT_ERROR; there is no category named SCHEMA_MISMATCH. *)
Lemma schema_category_counterexample :
  category_name (err_category
    (fromParseResult [mkIssue "Expected string, received number" "name"] 200 None))
  <> "SCHEMA_MISMATCH".
Proof. simpl. discriminate. Qed.

(** C9 (amended): for every issue list, [hasValidationDetails] holds iff
    the list is non-empty, [getValidationFields] lists the issue paths in
    order, and the error is CLIENT_ERROR / SCHEMA_VALIDATION with code
    [Client_SchemaMismatch] (so [isSchemaMismatch] holds) and NO_RETRY. *)
Theorem parse_result_error : forall issues st corr,
  let e := fromParseResult issues st corr in
  hasValidationDetails e = negb (Nat.eqb (length issues) 0)
  /\ getValidationFields e = map path issues
  /\ err_category e = CLIENT_ERROR /\ err_subcategory e = SCHEMA_VALIDATION
  /\ code e = "Client_SchemaMismatch" /\ isSchemaMismatch e = true
  /\ err_retryStrategy e = NO_RETRY.
Proof. intros. repeat split; reflexivity. Qed.

(** ** C10: request timeout *)

(** C10: the delay of the abort signal of the request handed to [fetch]
    is [opts.timeout] when given and 30000 otherwise, and the client's
    stored timeout is never read: [request] gives the same result whatever
    it is. *)
Theorem request_timeout : forall env c endpoint opts,
  (forall req, fst (request env c endpoint opts) = Some req ->
     req_timeout req = match timeout opts with Some t => t | None => 30000 end)
  /\ (forall t, request env (with_client_timeout c t) endpoint opts
              = request env c endpoint opts).
Proof.
  intros env c endpoint opts. split.
  - unfold request. destruct (getToken_wrapped env c) as [[tok|e]|];
      simpl; intros req H; request_checks; simpl in H; try discriminate H;
      inversion H; subst; reflexivity.
  - intros t. reflexivity.
Qed.

Lemma request_timeout_witness :
  fst (request token_env sample_client "customers" no_opts)
    = Some (build_request sample_client "customers" no_opts "tok")
  /\ req_timeout (build_request sample_client "customers" no_opts "tok") = 30000
  /\ client_timeout sample_client = 5000.
Proof.
  split; [reflexivity|]. split; [|reflexivity].
  apply (proj1 (request_timeout token_env sample_client "customers" no_opts)).
  reflexivity.
Defined.

(** ** C8: token-provider failures *)

(** C8 (as stated, refuted): the wrapped error keeps only the rejection's
    [message]: two rejections that differ in everything else give the same
    result, so the original failure is not kept as a cause. *)
Lemma token_cause_counterexample :
  request (rejecting_env (RejValue (Some "invalid_client")
                            [("name", JStr "AuthenticationRequiredError");
                             ("errorResponse", JObj [("error", JStr "invalid_client")])]))
          sample_client "customers" no_opts
  = request (rejecting_env (RejValue (Some "invalid_client") []))
            sample_client "customers" no_opts.
Proof. reflexivity. Qed.

(** C8 (amended): when the token provider rejects with an error value,
    [request] calls no [fetch] and rejects with a
    [BCError] of category AUTHENTICATION, REFRESH_TOKEN, httpStatus 401,
    code [Authentication_TokenRequest], no correlation id, whose message is
    the rejection's [message] (the default text when it is empty or
    absent); the error depends on that message alone. *)
Theorem token_failure_wrapped : forall env c endpoint opts m others,
  getToken env (scope c) = TokReject (RejValue m others) ->
  let msg := match m with Some s => s | None => "" end in
  exists e, request env c endpoint opts = (None, Rejected e)
  /\ err_category e = AUTHENTICATION /\ err_retryStrategy e = REFRESH_TOKEN
  /\ httpStatus e = 401 /\ code e = "Authentication_TokenRequest"
  /\ correlationId e = None
  /\ message e = (if String.eqb msg "" then "Unknown Business Central error" else msg)
  /\ e = new_BCError (mkErrorResponse "Authentication_TokenRequest" msg) 401 None.
Proof.
  intros env c endpoint opts m others H. cbv zeta.
  eexists. unfold request, getToken_wrapped. rewrite H.
  split; [reflexivity|]. repeat split; reflexivity.
Qed.

Lemma token_failure_wrapped_witness :
  getToken (rejecting_env (RejValue (Some "invalid_client") [])) (scope sample_client)
    = TokReject (RejValue (Some "invalid_client") [])
  /\ snd (request (rejecting_env (RejValue (Some "invalid_client") []))
                  sample_client "customers" no_opts)
     = Rejected (new_BCError (mkErrorResponse "Authentication_TokenRequest" "invalid_client")
                             401 None).
Proof.
  split; [reflexivity|].
  destruct (token_failure_wrapped (rejecting_env (RejValue (Some "invalid_client") []))
              sample_client "customers" no_opts (Some "invalid_client") [] eq_refl)
    as [e [He [_ [_ [_ [_ [_ [_ Hd]]]]]]]].
  rewrite He, Hd. reflexivity.
Defined.

(** ** C5: the five-page scenario *)

(** C5: on a collection of five pages of two items each followed by an
    empty page, [list()] without a cap yields the ten items in server
    order (six requests) and ends normally; with [maxResults = 5] it yields
    the first five items, makes three requests, and the fifth item is its
    last event: no request follows the cap. *)
Theorem list_mock_pages : forall (its : list jval) (f : jval -> jval) (fuel : nat),
  length its = 10%nat -> (6 <= fuel)%nat ->
  let run p := ApiPage_list unit (mock_endpoint its) (fun _ => [])
                 url_skipToken (fun x => PData (f x)) "items" None p fuel in
  yields (fst (run None)) = map f its
  /\ request_count (fst (run None)) = 6%nat /\ snd (run None) = LDone
  /\ yields (fst (run (Some (mkPaginationOpts (Some 5) None)))) = firstn 5 (map f its)
  /\ request_count (fst (run (Some (mkPaginationOpts (Some 5) None)))) = 3%nat
  /\ last (fst (run (Some (mkPaginationOpts (Some 5) None)))) (EvYield JNull)
     = EvYield (f (nth 4 its JNull))
  /\ snd (run (Some (mkPaginationOpts (Some 5) None))) = LDone.
Proof.
  intros its f fuel Hlen Hfuel. cbv zeta.
  do 10 (destruct its as [|? its]; [discriminate|]).
  destruct its; [|discriminate].
  do 6 (destruct fuel as [|fuel]; [lia|]).
  repeat split; reflexivity.
Qed.

Lemma list_mock_pages_witness :
  let its := map JNum [1; 2; 3; 4; 5; 6; 7; 8; 9; 10] in
  length its = 10%nat /\ (6 <= 6)%nat
  /\ yields (fst (ApiPage_list unit (mock_endpoint its) (fun _ => []) url_skipToken
                   (fun x => PData x) "items" None (Some (mkPaginationOpts (Some 5) None)) 6))
     = map JNum [1; 2; 3; 4; 5].
Proof.
  cbv zeta. split; [reflexivity|]. split; [lia|].
  exact (proj1 (proj2 (proj2 (proj2
    (list_mock_pages (map JNum [1; 2; 3; 4; 5; 6; 7; 8; 9; 10]) (fun x => x) 6
                     eq_refl (le_n 6)))))).
Defined.

(** ** C6: one step of the list loop *)

Lemma list_loop_first_request : forall (R : Type) creq Uq lsk validate endpoint query
    pOpts f s n, exists rest,
  fst (list_loop R creq Uq lsk validate endpoint query pOpts (S f) s n)
  = EvRequest (list_opts Uq query pOpts s) :: rest.
Proof.
  intros. cbn [list_loop].
  match goal with |- context [let '(evs, out) := ?m in _] => destruct m end.
  eexists. reflexivity.
Qed.

(** C6: after a page whose [value] is an array, the cursor of the next
    request is the skipToken of the continuation link when the link is
    present (truthy), the empty string when that link has no skipToken, and
    the old cursor when no link is present (absent or falsy).  An empty
    array ends the loop after that one request.  A non-empty page whose
    items all pass and which does not reach the separately specified
    [maxResults] cap always leads to the next request with that cursor,
    whether or not a link was present, so a missing link never ends the
    loop by itself. *)
Theorem list_step : forall (R : Type) creq Uq lsk validate endpoint query pOpts
    fuel skipToken itemCount data items,
  creq endpoint (list_opts Uq query pOpts skipToken) = inl data ->
  get_prop data "value" = Some (JArr items) ->
  let opts := list_opts Uq query pOpts skipToken in
  let loop := list_loop R creq Uq lsk validate endpoint query pOpts in
  (forall l, get_prop data "@odata.nextLink" = Some l -> truthy l = false ->
     next_cursor lsk data skipToken = skipToken)
  /\ (forall l t, get_prop data "@odata.nextLink" = Some l -> truthy l = true ->
        lsk l = Some t -> next_cursor lsk data skipToken = t)
  /\ (forall l, get_prop data "@odata.nextLink" = Some l -> truthy l = true ->
        lsk l = None -> next_cursor lsk data skipToken = "")
  /\ (items = [] -> loop (S fuel) skipToken itemCount = ([EvRequest opts], LDone))
  /\ (forall evs1 n, items <> [] ->
        page_items R validate pOpts items itemCount = (evs1, inl n) ->
        loop (S fuel) skipToken itemCount
        = (EvRequest opts :: app evs1 (fst (loop fuel (next_cursor lsk data skipToken) n)),
           snd (loop fuel (next_cursor lsk data skipToken) n))
        /\ (forall f, fuel = S f -> exists rest,
              fst (loop fuel (next_cursor lsk data skipToken) n)
              = EvRequest (list_opts Uq query pOpts (next_cursor lsk data skipToken)) :: rest)).
Proof.
  intros R creq Uq lsk validate endpoint query pOpts fuel skipToken itemCount
    data items Hreq Hv. cbv zeta.
  split; [|split; [|split; [|split]]].
  - intros l Hl Ht. unfold next_cursor. rewrite Hl, Ht. reflexivity.
  - intros l t Hl Ht Hs. unfold next_cursor. rewrite Hl, Ht, Hs. reflexivity.
  - intros l Hl Ht Hs. unfold next_cursor. rewrite Hl, Ht, Hs. reflexivity.
  - intros ->. simpl. rewrite Hreq, Hv. reflexivity.
  - intros evs1 n Hne Hp. split.
    + simpl. rewrite Hreq, Hv. simpl.
      destruct items as [|i0 items']; [contradiction|]. simpl.
      simpl in Hp. rewrite Hp.
      destruct (list_loop R creq Uq lsk validate endpoint query pOpts fuel
                  (next_cursor lsk data skipToken) n). reflexivity.
    + intros f ->. apply list_loop_first_request.
Qed.

Lemma list_step_witness :
  let its := map JNum [1; 2; 3; 4; 5; 6; 7; 8; 9; 10] in
  mock_endpoint its "items" (list_opts (fun _ => []) None None "") = inl (mock_page its 1)
  /\ get_prop (mock_page its 1) "value" = Some (JArr [JNum 1; JNum 2])
  /\ next_cursor url_skipToken (mock_page its 1) "" = "2".
Proof.
  cbv zeta. split; [reflexivity|]. split; [reflexivity|].
  apply (proj1 (proj2 (list_step unit (mock_endpoint (map JNum [1; 2; 3; 4; 5; 6; 7; 8; 9; 10]))
           (fun _ => []) url_skipToken (fun x => PData x) "items" None None 1 "" 0
           (mock_page (map JNum [1; 2; 3; 4; 5; 6; 7; 8; 9; 10]) 1) [JNum 1; JNum 2]
           eq_refl eq_refl))
         (JStr "https://mock.test/items?skipToken=2")).
  - reflexivity.
  - reflexivity.
  - reflexivity.
Defined.

(** ** C7: a response without a [value] array *)

(** C7 (as stated, refuted): the error thrown for an envelope without
    [value] carries the schema-mismatch message; the missing-value text is
    the message of its single validation issue. *)
Lemma missing_value_message_counterexample :
  let data := JObj [("error", JStr "unexpected")] in
  snd (ApiPage_list unit (fun _ _ => inl data) (fun _ => []) url_skipToken
         (fun x => PData x) "items" None None 3)
    = LThrowSchema (missing_value_error data)
  /\ se_message (missing_value_error data) <> "Missing value property on list response."
  /\ se_validationDetails (missing_value_error data) = [MISSING_VALUE_ISSUE].
Proof.
  cbv zeta. split; [reflexivity|]. split; [discriminate|reflexivity].
Qed.

(** C7 (amended): when a response is an object whose [value] is missing
    (undefined), falsy or not an array, the iterator makes that one
    request, yields nothing from the page, never calls the validator, and
    throws the schema-mismatch error whose single issue carries the
    missing-value text at path [root.value], whose message is the fixed
    schema-mismatch text, and whose response data is the envelope. *)
Theorem list_missing_value : forall (R : Type) creq Uq lsk validate endpoint query
    pOpts fuel skipToken itemCount data v,
  creq endpoint (list_opts Uq query pOpts skipToken) = inl data ->
  get_prop data "value" = Some v ->
  truthy v = false \/ is_array v = false ->
  list_loop R creq Uq lsk validate endpoint query pOpts (S fuel) skipToken itemCount
    = ([EvRequest (list_opts Uq query pOpts skipToken)],
       LThrowSchema (missing_value_error data))
  /\ (forall validate', list_loop R creq Uq lsk validate' endpoint query pOpts (S fuel)
                          skipToken itemCount
                        = list_loop R creq Uq lsk validate endpoint query pOpts (S fuel)
                            skipToken itemCount)
  /\ se_message (missing_value_error data) = SCHEMA_MISMATCH_MESSAGE
  /\ se_category (missing_value_error data) = "SCHEMA_MISMATCH"
  /\ se_validationDetails (missing_value_error data)
     = [mkIssue "Missing value property on list response." "root.value"]
  /\ se_responseData (missing_value_error data) = Some data.
Proof.
  intros R creq Uq lsk validate endpoint query pOpts fuel skipToken itemCount
    data v Hreq Hv Hbad.
  assert (Hb : negb (truthy v) || negb (is_array v) = true).
  { destruct Hbad as [H|H]; rewrite H; [reflexivity|apply orb_true_r]. }
  assert (Hstep : forall val, list_loop R creq Uq lsk val endpoint query pOpts (S fuel)
                                skipToken itemCount
                  = ([EvRequest (list_opts Uq query pOpts skipToken)],
                     LThrowSchema (missing_value_error data))).
  { intros val. simpl. rewrite Hreq, Hv, Hb. reflexivity. }
  split; [apply Hstep|]. split.
  - intros validate'. rewrite !Hstep. reflexivity.
  - repeat split; reflexivity.
Qed.

Lemma list_missing_value_witness :
  let data := JObj [("error", JStr "unexpected")] in
  get_prop data "value" = Some JUndefined
  /\ se_responseData (missing_value_error data) = Some data
  /\ ApiPage_list unit (fun _ _ => inl data) (fun _ => []) url_skipToken
       (fun x => PData x) "items" None None 3
     = ([EvRequest (list_opts (fun _ => []) None None "")],
        LThrowSchema (missing_value_error data)).
Proof.
  cbv zeta. split; [reflexivity|]. split.
  - apply (list_missing_value unit (fun _ _ => inl (JObj [("error", JStr "unexpected")]))
             (fun _ => []) url_skipToken (fun x => PData x) "items" None None 2 "" 0
             (JObj [("error", JStr "unexpected")]) JUndefined eq_refl eq_refl
             (or_introl eq_refl)).
  - apply (list_missing_value unit (fun _ _ => inl (JObj [("error", JStr "unexpected")]))
             (fun _ => []) url_skipToken (fun x => PData x) "items" None None 2 "" 0
             (JObj [("error", JStr "unexpected")]) JUndefined eq_refl eq_refl
             (or_introl eq_refl)).
Defined.

(* ================================================================== *)
(** * Further properties of the code *)

(** ** categorize.ts *)

(** [categorizeError] on a code that is no key of the table: rule out
    each [String.eqb code key] left in the goal. *)
Ltac no_key E :=
  repeat match goal with
         | |- context [String.eqb ?x ?lit] =>
             let Heq := fresh "Heq" in
             destruct (String.eqb_spec x lit) as [Heq|_];
             [rewrite Heq in E; vm_compute in E; discriminate E|]
         end.

Lemma categorizeError_group_never : forall code,
  category (categorizeError code) <> NETWORK_ERROR
  /\ category (categorizeError code) <> PARSING_ERROR
  /\ retryStrategy (categorizeError code) <> IMMEDIATE_RETRY.
Proof.
  intros code. unfold categorizeError.
  destruct (map_get code ERROR_CODE_MAPPINGS) as [g|] eqn:E.
  - apply map_get_In in E. simpl in E.
    repeat (destruct E as [E|E]; [inversion E; subst; repeat split; discriminate|]).
    destruct E.
  - destruct (first_prefix code PREFIX_DEFAULTS) as [g|] eqn:F.
    + destruct (first_prefix_In _ _ _ F) as [p Hp]. simpl in Hp.
      repeat (destruct Hp as [Hp|Hp]; [inversion Hp; subst; repeat split; discriminate|]).
      destruct Hp.
    + repeat split; discriminate.
Qed.

(** [categorizeError] never returns NETWORK_ERROR, PARSING_ERROR or
    IMMEDIATE_RETRY: those two categories come only from the factories
    that override the categorization, and no code of either table is sent
    to IMMEDIATE_RETRY. *)
Theorem categorizeError_never : forall code,
  let g := categorizeError code in
  category g <> NETWORK_ERROR /\ category g <> PARSING_ERROR
  /\ retryStrategy g <> IMMEDIATE_RETRY.
Proof. intros code. exact (categorizeError_group_never code). Qed.

(** The codes [categorizeError] sends to REFRESH_TOKEN are exactly those
    starting with [Authentication_] and the two codes
    [BadRequest_InvalidToken] and [Unauthorized]; the codes it sends to
    EXPONENTIAL_BACKOFF are exactly those starting with [Internal_] except
    the five listed conflict, not-found and validation codes. *)
Theorem categorizeError_retry_classes : forall code,
  BCRetryStrategy_beq (retryStrategy (categorizeError code)) REFRESH_TOKEN
  = prefix "Authentication_" code || String.eqb code "BadRequest_InvalidToken"
    || String.eqb code "Unauthorized"
  /\ BCRetryStrategy_beq (retryStrategy (categorizeError code)) EXPONENTIAL_BACKOFF
  = prefix "Internal_" code
    && negb (existsb (String.eqb code)
               ["Internal_EntityWithSameKeyExists"; "Internal_RecordNotFound";
                "Internal_CompanyNotFound"; "Internal_DataNotFoundFilter";
                "Internal_InvalidTableRelation"]).
Proof.
  intros code. unfold categorizeError.
  destruct (map_get code ERROR_CODE_MAPPINGS) as [g|] eqn:E.
  - apply map_get_In in E. simpl in E.
    repeat (destruct E as [E|E]; [inversion E; subst; split; reflexivity|]).
    destruct E.
  - unfold PREFIX_DEFAULTS. cbn [first_prefix].
    destruct (prefix "BadRequest_" code) eqn:E1;
      [apply prefix_app_inv in E1; destruct E1 as [t ->]; rewrite ?prefix_app;
       simpl; no_key E; split; reflexivity|].
    destruct (prefix "Request_" code) eqn:E2;
      [apply prefix_app_inv in E2; destruct E2 as [t ->]; rewrite ?prefix_app;
       simpl; no_key E; split; reflexivity|].
    destruct (prefix "Internal_" code) eqn:E3;
      [apply prefix_app_inv in E3; destruct E3 as [t ->]; rewrite ?prefix_app;
       simpl; no_key E; split; reflexivity|].
    destruct (prefix "Application_" code) eqn:E4;
      [apply prefix_app_inv in E4; destruct E4 as [t ->]; rewrite ?prefix_app;
       simpl; no_key E; split; reflexivity|].
    destruct (prefix "Authentication_" code) eqn:E5;
      [apply prefix_app_inv in E5; destruct E5 as [t ->]; rewrite ?prefix_app;
       simpl; no_key E; split; reflexivity|].
    destruct (prefix "Authorization_" code) eqn:E6;
      [apply prefix_app_inv in E6; destruct E6 as [t ->]; rewrite ?prefix_app;
       simpl; no_key E; split; reflexivity|].
    simpl. no_key E. split; reflexivity.
Qed.

(** ** BCError (the class client.ts is compiled against) *)



(** A body that is an object whose [error] field is an object with
    string [code] and [message] passes the envelope check (other fields
    are ignored), and [fromHttpResponse] then builds the error from that
    code and message: the vendor code is kept as [code], the message
    (or the default text when it is empty) as [message], the status as
    [httpStatus], and no raw body is kept. *)
Theorem validateErrorResponse_accepts : forall fs efs c m st corr,
  map_get "error" fs = Some (JObj efs) ->
  map_get "code" efs = Some (JStr c) ->
  map_get "message" efs = Some (JStr m) ->
  validateErrorResponse (JObj fs) = Some (mkErrorResponse c m)
  /\ let e := fromHttpResponse st (JObj fs) corr in
     code e = c
     /\ message e = (if String.eqb m "" then "Unknown Business Central error" else m)
     /\ httpStatus e = st /\ originalError e = mkErrorResponse c m
     /\ originalResponse e = None
     /\ err_category e = category (categorizeError c).
Proof.
  intros fs efs c m st corr He Hc Hm.
  assert (Hv : validateErrorResponse (JObj fs) = Some (mkErrorResponse c m)).
  { unfold validateErrorResponse. simpl. rewrite He. simpl. rewrite Hc, Hm. reflexivity. }
  split; [exact Hv|]. cbv zeta. unfold fromHttpResponse. rewrite Hv.
  repeat split; reflexivity.
Qed.

Lemma validateErrorResponse_accepts_witness :
  let fs := [("error", JObj [("code", JStr "Internal_ServerError");
                             ("message", JStr "Database timeout");
                             ("details", JArr [])]);
             ("trace", JStr "t-1")] in
  map_get "error" fs = Some (JObj [("code", JStr "Internal_ServerError");
                                   ("message", JStr "Database timeout");
                                   ("details", JArr [])])
  /\ err_category (fromHttpResponse 503 (JObj fs) "r-1") = SERVER_ERROR.
Proof.
  cbv zeta. split; [reflexivity|].
  rewrite (proj2 (proj2 (proj2 (proj2 (proj2 (proj2
    (validateErrorResponse_accepts
       [("error", JObj [("code", JStr "Internal_ServerError");
                        ("message", JStr "Database timeout");
                        ("details", JArr [])]);
        ("trace", JStr "t-1")]
       [("code", JStr "Internal_ServerError");
        ("message", JStr "Database timeout");
        ("details", JArr [])]
       "Internal_ServerError" "Database timeout" 503 "r-1"
       eq_refl eq_refl eq_refl))))))).
  reflexivity.
Defined.

(** A body that is not a JSON object (null, a boolean, a number, a
    string or an array), or an object whose [error] field is missing, is
    [null] or is not an object, fails the envelope check; [fromHttpResponse]
    then gives PARSING_ERROR / UNEXPECTED_RESPONSE_FORMAT / NO_RETRY with
    code [Client_UnexpectedResponseFormat] and keeps the body. *)
Theorem fromHttpResponse_rejects_shape : forall st d corr,
  ((forall fs, d <> JObj fs)
   \/ (exists fs, d = JObj fs /\
        (map_get "error" fs = None \/ map_get "error" fs = Some JNull
         \/ exists x, map_get "error" fs = Some x /\ typeof_object x = false))) ->
  validateErrorResponse d = None
  /\ let e := fromHttpResponse st d corr in
     err_category e = PARSING_ERROR /\ err_subcategory e = UNEXPECTED_RESPONSE_FORMAT
     /\ err_retryStrategy e = NO_RETRY /\ code e = "Client_UnexpectedResponseFormat"
     /\ httpStatus e = st /\ originalResponse e = Some d.
Proof.
  intros st d corr H.
  assert (Hv : validateErrorResponse d = None).
  { destruct H as [Hn|[fs [-> Hf]]].
    - destruct d; try (exfalso; eapply Hn; reflexivity);
        unfold validateErrorResponse; cbn [typeof_object negb];
        rewrite ?orb_true_r; reflexivity.
    - unfold validateErrorResponse. simpl.
      destruct Hf as [Hf|[Hf|[x [Hf Hx]]]]; rewrite Hf; simpl; [reflexivity|reflexivity|].
      rewrite Hx. simpl. reflexivity. }
  split; [exact Hv|]. cbv zeta. unfold fromHttpResponse. rewrite Hv.
  repeat split; reflexivity.
Qed.

Lemma fromHttpResponse_rejects_shape_witness :
  validateErrorResponse (JArr [JStr "error"]) = None
  /\ originalResponse (fromHttpResponse 400 (JArr [JStr "error"]) "r-2")
     = Some (JArr [JStr "error"]).
Proof.
  assert (Hd : (forall fs, JArr [JStr "error"] <> JObj fs)
               \/ (exists fs, JArr [JStr "error"] = JObj fs /\
                    (map_get "error" fs = None \/ map_get "error" fs = Some JNull
                     \/ exists x, map_get "error" fs = Some x /\ typeof_object x = false))).
  { left. intros fs. discriminate. }
  split.
  - exact (proj1 (fromHttpResponse_rejects_shape 400 (JArr [JStr "error"]) "r-2" Hd)).
  - exact (proj2 (proj2 (proj2 (proj2 (proj2 (proj2
      (fromHttpResponse_rejects_shape 400 (JArr [JStr "error"]) "r-2" Hd))))))).
Defined.

(** [isSchemaMismatch()] across the factories: it holds for every
    schema-issues error (also with no issue), never for network, JSON or
    unexpected-response errors, and for an HTTP error exactly when the
    server's own envelope carries the code [Client_SchemaMismatch]. *)
Theorem isSchemaMismatch_by_factory :
  (forall issues st corr, isSchemaMismatch (fromParseResult issues st corr) = true)
  /\ (forall ne, isSchemaMismatch (fromNetworkError ne) = false)
  /\ (forall m st corr, isSchemaMismatch (fromJsonError m st corr) = false)
  /\ (forall d st corr, isSchemaMismatch (fromUnexpectedResponse d st corr) = false)
  /\ (forall st d corr, isSchemaMismatch (fromHttpResponse st d corr)
        = match validateErrorResponse d with
          | Some er => String.eqb (er_code er) "Client_SchemaMismatch"
          | None => false
          end).
Proof.
  split; [reflexivity|]. split.
  { intros ne. unfold fromNetworkError. destruct (network_switch (ne_code ne)).
    reflexivity. }
  split; [reflexivity|]. split; [reflexivity|].
  intros st d corr. unfold fromHttpResponse.
  destruct (validateErrorResponse d) as [er|]; [|reflexivity].
  unfold isSchemaMismatch, hasValidationDetails. simpl. apply orb_false_r.
Qed.

(** [isRetryable()] across the factories: a network error is retryable
    except for ENOTFOUND and the three certificate codes; JSON-parse,
    schema-issues and unexpected-response errors never are. *)
Theorem isRetryable_by_factory :
  (forall ne, isRetryable (fromNetworkError ne) = negb (network_no_retry_code (ne_code ne)))
  /\ (forall m st corr, isRetryable (fromJsonError m st corr) = false)
  /\ (forall issues st corr, isRetryable (fromParseResult issues st corr) = false)
  /\ (forall d st corr, isRetryable (fromUnexpectedResponse d st corr) = false).
Proof.
  split; [|repeat split].
  intros ne. pose proof (network_switch_retry (ne_code ne)) as Hr.
  unfold fromNetworkError. destruct (network_switch (ne_code ne)) as [sub r].
  simpl in Hr. subst r. unfold isRetryable. simpl.
  destruct (network_no_retry_code (ne_code ne)); reflexivity.
Qed.

(** [toLogObject()] lists [validationDetails] and [validationCount] for
    every schema-issues error, the count being the number of issues (0
    for an empty list, where [hasValidationDetails()] is false), and has
    neither key for an error without validation details. *)
Theorem toLogObject_validation : forall ts,
  (forall issues st corr,
     let e := fromParseResult issues st corr in
     map_get "validationDetails" (toLogObject ts e) = Some (LIssues issues)
     /\ map_get "validationCount" (toLogObject ts e)
        = Some (LNum (Z.of_nat (length issues))))
  /\ (forall e, validationDetails e = None ->
        map_get "validationDetails" (toLogObject ts e) = None
        /\ map_get "validationCount" (toLogObject ts e) = None).
Proof.
  intros ts. split.
  - intros issues st corr. split; reflexivity.
  - intros e H. unfold toLogObject. rewrite H. split; reflexivity.
Qed.

Lemma toLogObject_validation_witness :
  let e := fromNetworkError (mkNetworkError "socket hang up" (Some "ECONNRESET") []) in
  validationDetails e = None
  /\ map_get "validationCount" (toLogObject "2025-01-01T00:00:00.000Z" e) = None.
Proof.
  cbv zeta. split; [reflexivity|].
  apply (proj2 (toLogObject_validation "2025-01-01T00:00:00.000Z")). reflexivity.
Defined.

(** ** client.ts: request and requestWithSchema *)


Lemma strip_leading_slash_other : forall a r, a <> "/"%char ->
  strip_leading_slash (String a r) = String a r.
Proof.
  intros a r H.
  destruct a as [[] [] [] [] [] [] [] []]; try reflexivity.
  exfalso. apply H. reflexivity.
Qed.

(** [request] strips one leading slash of the endpoint and no more: an
    endpoint with one leading slash gives the same call as the endpoint
    without it, and with two leading slashes one stays in the URL. *)
Theorem request_leading_slash : forall env c e opts,
  (forall a r, e = String a r -> a <> "/"%char) ->
  request env c ("/" ++ e) opts = request env c e opts
  /\ (forall req, fst (request env c ("//" ++ e) opts) = Some req ->
        fst (req_url req) = apiURL c ++ "//" ++ e).
Proof.
  intros env c e opts He.
  assert (Hs : strip_leading_slash e = e).
  { destruct e as [|a r]; [reflexivity|]. apply strip_leading_slash_other.
    apply (He a r). reflexivity. }
  split.
  - unfold request, build_request. simpl strip_leading_slash. rewrite Hs. reflexivity.
  - unfold request. destruct (getToken_wrapped env c) as [[tok|err]|];
      simpl; intros req H; request_checks; simpl in H; try discriminate H;
      inversion H; subst; reflexivity.
Qed.

Lemma request_leading_slash_witness :
  request token_env sample_client "/customers" no_opts
  = request token_env sample_client "customers" no_opts
  /\ fst (req_url (build_request sample_client "//customers" no_opts "tok"))
     = apiURL sample_client ++ "//customers".
Proof.
  split.
  - apply (request_leading_slash token_env sample_client "customers" no_opts).
    intros a r H. inversion H. discriminate.
  - apply (proj2 (request_leading_slash token_env sample_client "customers" no_opts
                   (fun a r H => ltac:(inversion H; discriminate)))).
    reflexivity.
Defined.





(** [requestWithSchema] makes the same call as [request]; when the call
    resolves it returns the parsed data, or rejects with a schema-issues
    error that has httpStatus 200 and no correlation id whatever the
    response's status and [request-id] were; a rejection of [request]
    passes through unchanged. *)
Theorem requestWithSchema_outcome : forall env c endpoint validate opts,
  fst (requestWithSchema env c endpoint validate opts) = fst (request env c endpoint opts)
  /\ (forall data d, snd (request env c endpoint opts) = Resolved data ->
        validate data = PData d ->
        snd (requestWithSchema env c endpoint validate opts) = Resolved d)
  /\ (forall data issues, snd (request env c endpoint opts) = Resolved data ->
        validate data = PIssues issues ->
        exists e, snd (requestWithSchema env c endpoint validate opts) = Rejected e
        /\ httpStatus e = 200 /\ correlationId e = None
        /\ err_category e = CLIENT_ERROR /\ validationDetails e = Some issues)
  /\ (forall e, snd (request env c endpoint opts) = Rejected e ->
        snd (requestWithSchema env c endpoint validate opts) = Rejected e)
  /\ (snd (request env c endpoint opts) = RejectedTypeError ->
        snd (requestWithSchema env c endpoint validate opts) = RejectedTypeError).
Proof.
  intros env c endpoint validate opts. unfold requestWithSchema.
  destruct (request env c endpoint opts) as [req out]. simpl.
  split; [reflexivity|]. split; [|split; [|split]].
  - intros data d Ho Hv. subst out. rewrite Hv. reflexivity.
  - intros data issues Ho Hv. subst out. rewrite Hv.
    eexists. split; [reflexivity|]. repeat split; reflexivity.
  - intros e Ho. subst out. reflexivity.
  - intros Ho. subst out. reflexivity.
Qed.

Lemma requestWithSchema_outcome_witness :
  let v := fun _ : jval => PIssues [mkIssue "Required" "displayName"] in
  snd (request token_env sample_client "customers(1)" no_opts) = Resolved (JObj [])
  /\ exists e, snd (requestWithSchema token_env sample_client "customers(1)" v no_opts)
               = Rejected e /\ httpStatus e = 200.
Proof.
  cbv zeta. split; [reflexivity|].
  destruct (proj1 (proj2 (proj2 (requestWithSchema_outcome token_env sample_client
              "customers(1)" (fun _ : jval => PIssues [mkIssue "Required" "displayName"])
              no_opts)))
              (JObj []) [mkIssue "Required" "displayName"] eq_refl eq_refl)
    as [e [He [Hs _]]].
  exists e. split; [exact He|exact Hs].
Defined.

(** ** api-page.ts: delete and action *)



(** ** client.ts: the constructor *)

(** [new BCClient(config, ...)] succeeds exactly when both [companyId]
    and [tenantId] are GUIDs (either case), the environment name is not
    empty, and a non-empty [baseURL], if given, parses as a URL (an empty
    one is ignored); a missing or zero timeout becomes 30000. *)
Theorem new_BCClient_valid : forall isValidURL ua config apiPath0,
  match new_BCClient isValidURL ua config apiPath0 with Some _ => true | None => false end
  = isValidGUID (companyId config) && isValidGUID (tenantId config)
    && negb (String.eqb (environment config) "")
    && match baseURL config with Some u => String.eqb u "" || isValidURL u | None => true end
  /\ (forall c, new_BCClient isValidURL ua config apiPath0 = Some c ->
        (cfg_timeout config = None \/ cfg_timeout config = Some 0) ->
        client_timeout c = 30000).
Proof.
  intros isValidURL ua config apiPath0. split.
  - unfold new_BCClient.
    destruct (baseURL config) as [u|];
      [destruct (String.eqb u ""); [|destruct (isValidURL u)]|]; simpl;
      destruct (isValidGUID (companyId config)), (isValidGUID (tenantId config)),
               (String.eqb (environment config) ""); reflexivity.
  - intros c H Ht. unfold new_BCClient in H.
    destruct (baseURL config) as [u|];
      [destruct (String.eqb u ""); [|destruct (isValidURL u)]|]; simpl in H;
      destruct (isValidGUID (companyId config)), (isValidGUID (tenantId config)),
               (String.eqb (environment config) ""); simpl in H; try discriminate H;
      inversion H; subst c; simpl; destruct Ht as [-> | ->]; reflexivity.
Qed.

Lemma new_BCClient_valid_witness :
  new_BCClient (fun _ => true) "bc-ts/0.1.0" sample_config "v2.0" <> None
  /\ client_timeout (match new_BCClient (fun _ => true) "bc-ts/0.1.0" sample_config "v2.0" with
                    | Some c => c | None => sample_client end) = 30000.
Proof.
  split; [discriminate|].
  apply (proj2 (new_BCClient_valid (fun _ => true) "bc-ts/0.1.0" sample_config "v2.0")).
  - reflexivity.
  - left. reflexivity.
Defined.

(** ** api-page.ts: invariants of list *)

Lemma yields_cons_request : forall o evs, yields (EvRequest o :: evs) = yields evs.
Proof. reflexivity. Qed.

Lemma yields_app : forall a b, yields (app a b) = app (yields a) (yields b).
Proof. intros a b. unfold yields. apply flat_map_app. Qed.

Lemma cap_reached_pos : forall po m k, maxResults po = Some m -> 0 < m ->
  cap_reached (Some po) k = (m <=? k).
Proof.
  intros po m k Hm Hpos. simpl. rewrite Hm.
  destruct (Z.eqb_spec m 0); [lia|reflexivity].
Qed.

Lemma page_items_bound : forall (R : Type) validate po m items n evs r,
  maxResults po = Some m -> 0 < m -> n < m ->
  page_items R validate (Some po) items n = (evs, r) ->
  n + Z.of_nat (length (yields evs)) <= m
  /\ (forall n', r = inl n' -> n' = n + Z.of_nat (length (yields evs)) /\ n' < m).
Proof.
  intros R validate po m items. induction items as [|item rest IH];
    intros n evs r Hm Hpos Hn H.
  - inversion H; subst. simpl. split; [lia|]. intros n' E. inversion E. lia.
  - cbn [page_items] in H. destruct (validate item) as [d|issues].
    + rewrite (cap_reached_pos po m (n + 1) Hm Hpos) in H.
      destruct (Z.leb_spec m (n + 1)) as [Hc|Hc].
      * inversion H; subst. simpl. split; [lia|]. intros n' E. discriminate E.
      * destruct (page_items R validate (Some po) rest (n + 1)) as [evs' r'] eqn:E.
        inversion H; subst evs r.
        destruct (IH (n + 1) evs' r' Hm Hpos Hc E) as [H1 H2].
        change (yields (EvYield d :: evs')) with (d :: yields evs').
        simpl length. split; [lia|].
        intros n' E'. destruct (H2 n' E'). lia.
    + inversion H; subst. simpl. split; [lia|]. intros n' E. discriminate E.
Qed.

(** With a positive [maxResults], [list] never yields more than that many
    items, whatever the server returns and however many pages there are. *)
Theorem list_cap_bound : forall (R : Type) creq Uq lsk validate endpoint query po m fuel,
  maxResults po = Some m -> 0 < m ->
  Z.of_nat (length (yields (fst (ApiPage_list R creq Uq lsk validate endpoint query
                                   (Some po) fuel)))) <= m.
Proof.
  intros R creq Uq lsk validate endpoint query po m fuel Hm Hpos.
  unfold ApiPage_list.
  assert (Hgen : forall fuel s n, n < m ->
            n + Z.of_nat (length (yields (fst (list_loop R creq Uq lsk validate endpoint
                                                query (Some po) fuel s n)))) <= m).
  { induction fuel0 as [|f IH]; intros s n Hn; [simpl; lia|].
    cbn [list_loop].
    destruct (creq endpoint (list_opts Uq query (Some po) s)) as [data|e];
      [|simpl; lia].
    destruct (get_prop data "value") as [v|]; [|simpl; lia].
    destruct (negb (truthy v) || negb (is_array v))%bool; [simpl; lia|].
    destruct (Nat.eqb _ 0); [simpl; lia|].
    destruct (page_items R validate (Some po) _ n) as [evs1 r] eqn:Ep.
    destruct (page_items_bound R validate po m _ n evs1 r Hm Hpos Hn Ep) as [B1 B2].
    destruct r as [n'|o].
    - destruct (B2 n' eq_refl) as [E1 E2].
      specialize (IH (next_cursor lsk data s) n' E2).
      destruct (list_loop R creq Uq lsk validate endpoint query (Some po) f
                  (next_cursor lsk data s) n') as [evs2 o]. simpl in IH |- *.
      rewrite yields_app, length_app. lia.
    - simpl. lia. }
  specialize (Hgen fuel "" 0 Hpos). lia.
Qed.

Lemma list_cap_bound_witness :
  maxResults (mkPaginationOpts (Some 3) None) = Some 3 /\ 0 < 3
  /\ Z.of_nat (length (yields (fst (ApiPage_list unit
        (mock_endpoint (map JNum [1; 2; 3; 4; 5; 6; 7; 8; 9; 10])) (fun _ => [])
        url_skipToken (fun x => PData x) "items" None
        (Some (mkPaginationOpts (Some 3) None)) 6)))) <= 3.
Proof.
  split; [reflexivity|]. split; [lia|].
  apply (list_cap_bound unit (mock_endpoint (map JNum [1; 2; 3; 4; 5; 6; 7; 8; 9; 10]))
           (fun _ => []) url_skipToken (fun x => PData x) "items" None
           (mkPaginationOpts (Some 3) None) 3 6); [reflexivity | lia].
Defined.

Lemma page_items_maxResults_zero : forall (R : Type) validate spl items n,
  page_items R validate (Some (mkPaginationOpts (Some 0) spl)) items n
  = page_items R validate (Some (mkPaginationOpts None spl)) items n.
Proof.
  intros R validate spl items. induction items as [|item rest IH]; intros n;
    [reflexivity|].
  cbn [page_items]. destruct (validate item); [|reflexivity].
  rewrite IH. reflexivity.
Qed.

(** [maxResults: 0] is falsy in [pOpts?.maxResults && ...]: it sets no
    cap, and [list] behaves exactly as without [maxResults], page after
    page. *)
Theorem list_maxResults_zero : forall (R : Type) creq Uq lsk validate endpoint query spl fuel,
  ApiPage_list R creq Uq lsk validate endpoint query
    (Some (mkPaginationOpts (Some 0) spl)) fuel
  = ApiPage_list R creq Uq lsk validate endpoint query
    (Some (mkPaginationOpts None spl)) fuel.
Proof.
  intros R creq Uq lsk validate endpoint query spl fuel. unfold ApiPage_list.
  enough (G : forall s n,
    list_loop R creq Uq lsk validate endpoint query
      (Some (mkPaginationOpts (Some 0) spl)) fuel s n
    = list_loop R creq Uq lsk validate endpoint query
      (Some (mkPaginationOpts None spl)) fuel s n) by apply G.
  induction fuel as [|f IH]; intros s n; [reflexivity|].
  cbn [list_loop].
  replace (list_opts Uq query (Some (mkPaginationOpts (Some 0) spl)) s)
    with (list_opts Uq query (Some (mkPaginationOpts None spl)) s) by reflexivity.
  destruct (creq endpoint _) as [data|e]; [|reflexivity].
  destruct (get_prop data "value") as [v|]; [|reflexivity].
  destruct (_ || _)%bool; [reflexivity|].
  destruct (Nat.eqb _ 0); [reflexivity|].
  rewrite page_items_maxResults_zero.
  destruct (page_items _ _ _ _ n) as [evs1 [n'|o]]; [|reflexivity].
  rewrite IH. reflexivity.
Qed.

Lemma page_items_invalid : forall (R : Type) validate pOpts bad post issues pre ds n,
  map validate pre = map PData ds ->
  validate bad = PIssues issues ->
  (forall k, n < k <= n + Z.of_nat (length pre) -> cap_reached pOpts k = false) ->
  page_items R validate pOpts (app pre (bad :: post)) n
  = (map EvYield ds, inr (LThrowSchema (fromSchemaValidation issues))).
Proof.
  intros R validate pOpts bad post issues pre.
  induction pre as [|x pre IH]; intros ds n Hpre Hbad Hcap.
  - destruct ds; [|discriminate Hpre]. cbn [app page_items]. rewrite Hbad. reflexivity.
  - destruct ds as [|d ds]; [discriminate Hpre|]. simpl in Hpre.
    injection Hpre as Hx Hpre.
    cbn [app page_items]. rewrite Hx.
    rewrite (Hcap (n + 1)) by (simpl length; lia).
    rewrite (IH ds (n + 1) Hpre Hbad) by (intros k Hk; apply Hcap; simpl length; lia).
    reflexivity.
Qed.

(** The iterator stops at the first item of a page that fails the
    schema: the items before it are yielded, no further request is made,
    and the generator throws the schema error built from that item's
    issues. *)
Theorem list_stops_at_invalid : forall (R : Type) creq Uq lsk validate endpoint query pOpts
    fuel skipToken itemCount data pre bad post ds issues,
  creq endpoint (list_opts Uq query pOpts skipToken) = inl data ->
  get_prop data "value" = Some (JArr (app pre (bad :: post))) ->
  map validate pre = map PData ds ->
  validate bad = PIssues issues ->
  (forall k, itemCount < k <= itemCount + Z.of_nat (length pre) ->
     cap_reached pOpts k = false) ->
  list_loop R creq Uq lsk validate endpoint query pOpts (S fuel) skipToken itemCount
  = (EvRequest (list_opts Uq query pOpts skipToken) :: map EvYield ds,
     LThrowSchema (fromSchemaValidation issues)).
Proof.
  intros R creq Uq lsk validate endpoint query pOpts fuel skipToken itemCount data
    pre bad post ds issues Hreq Hv Hpre Hbad Hcap.
  cbn [list_loop]. rewrite Hreq, Hv. cbn [truthy is_array negb orb].
  rewrite length_app. cbn [length].
  replace (Nat.eqb (length pre + S (length post)) 0) with false
    by (symmetry; apply Nat.eqb_neq; lia).
  rewrite (page_items_invalid R validate pOpts bad post issues pre ds itemCount
             Hpre Hbad Hcap).
  reflexivity.
Qed.

(** Validation of an item: a [JNum] passes, anything else fails. *)
Definition num_validate (v : jval) : ParseResult :=
  match v with
  | JNum _ => PData v
  | _ => PIssues [mkIssue "Expected number" "root"]
  end.

Lemma list_stops_at_invalid_witness :
  list_loop unit
    (mock_endpoint [JNum 1; JStr "x"; JNum 3; JNum 4]) (fun _ => []) url_skipToken
    num_validate "items" None None 4 "" 0
  = ([EvRequest (list_opts (fun _ => []) None None ""); EvYield (JNum 1)],
     LThrowSchema (fromSchemaValidation [mkIssue "Expected number" "root"])).
Proof.
  apply (list_stops_at_invalid unit (mock_endpoint [JNum 1; JStr "x"; JNum 3; JNum 4])
           (fun _ => []) url_skipToken num_validate "items" None None 3 "" 0
           (mock_page [JNum 1; JStr "x"; JNum 3; JNum 4] 1) [JNum 1] (JStr "x") []
           [JNum 1] [mkIssue "Expected number" "root"]).
  - reflexivity.
  - reflexivity.
  - reflexivity.
  - reflexivity.
  - intros k _. reflexivity.
Defined.

(** ** api-page.ts: findOne *)

(** [findOne] asks for pages of one item ([serverPageLimit: 1], so a
    [Prefer: odata.maxpagesize=1] header) with the query's parameters;
    when the first page has an item that passes the schema, that item is
    the result and no second request is made; when the first page is
    empty the result is [null]. *)
Theorem findOne_first_page : forall (R : Type) (creq : string -> ListRequestOpts -> jval + R) Uq lsk validate endpoint query fuel data,
  let opts := list_opts Uq (Some query) (Some (mkPaginationOpts None (Some 1))) "" in
  creq endpoint opts = inl data ->
  lr_serverPageSize opts = Some 1
  /\ lr_params opts = Uq (Some query)
  /\ (forall x rest d,
        get_prop data "value" = Some (JArr (x :: rest)) -> validate x = PData d ->
        findOne creq Uq lsk validate endpoint query (S fuel)
        = ([EvRequest opts; EvYield d], inl (Some d)))
  /\ (get_prop data "value" = Some (JArr []) ->
        findOne creq Uq lsk validate endpoint query (S fuel) = ([EvRequest opts], inl None)).
Proof.
  intros R creq Uq lsk validate endpoint query fuel data opts Hreq.
  split; [reflexivity|]. split; [reflexivity|]. split.
  - intros x rest d Hv Hx. unfold findOne, ApiPage_list. cbn [list_loop].
    fold opts. rewrite Hreq, Hv. cbn [truthy is_array negb orb length Nat.eqb page_items].
    rewrite Hx. cbn [cap_reached maxResults].
    destruct (page_items R validate (Some (mkPaginationOpts None (Some 1))) rest (0 + 1))
      as [evs [n|o]].
    + destruct (list_loop R creq Uq lsk validate endpoint (Some query)
                  (Some (mkPaginationOpts None (Some 1))) fuel
                  (next_cursor lsk data "") n). reflexivity.
    + reflexivity.
  - intros Hv. unfold findOne, ApiPage_list. cbn [list_loop].
    fold opts. rewrite Hreq, Hv. reflexivity.
Qed.

Lemma findOne_first_page_witness :
  findOne (mock_endpoint [JNum 7; JNum 8; JNum 9]) (fun _ => []) url_skipToken
    (fun x => PData x) "items" "$top=3" 5
  = ([EvRequest (list_opts (fun _ => []) (Some "$top=3")
                  (Some (mkPaginationOpts None (Some 1))) "");
      EvYield (JNum 7)], inl (Some (JNum 7))).
Proof.
  apply (proj1 (proj2 (proj2 (findOne_first_page unit (mock_endpoint [JNum 7; JNum 8; JNum 9])
           (fun _ => []) url_skipToken (fun x => PData x) "items" "$top=3" 4
           (mock_page [JNum 7; JNum 8; JNum 9] 1) eq_refl)))
         (JNum 7) [JNum 8] (JNum 7)); reflexivity.
Defined.

(** ** validation/parse-schema.ts *)

(** [parseSchema] passes a valid input through unchanged; on a failure it
    keeps one issue per issue of the schema, in order and with its
    message; each path is the segments joined with "." and is never
    empty: a missing path, no segments or an empty join read "root". *)
Theorem parseSchema_result : forall validate_std input,
  (forall v, validate_std input = StdValue v -> parseSchema validate_std input = PData v)
  /\ (forall iss, validate_std input = StdIssues iss ->
        exists l, parseSchema validate_std input = PIssues l
        /\ map issue_message l = map si_message iss
        /\ map path l = map (fun i => issue_path (si_path i)) iss
        /\ Forall (fun i => path i <> "") l)
  /\ issue_path None = "root" /\ issue_path (Some []) = "root"
  /\ (forall segs, join_dot (map segment_string segs) <> "" ->
        issue_path (Some segs) = join_dot (map segment_string segs)).
Proof.
  intros validate_std input. split; [|split; [|split; [|split]]].
  - intros v H. unfold parseSchema. rewrite H. reflexivity.
  - intros iss H. unfold parseSchema. rewrite H. eexists. split; [reflexivity|].
    rewrite !map_map. split; [reflexivity|]. split; [reflexivity|].
    apply Forall_map. apply Forall_forall. intros i _. cbn [path].
    unfold issue_path.
    match goal with |- context [String.eqb ?j ""] => destruct (String.eqb_spec j "") end;
      [discriminate|assumption].
  - reflexivity.
  - reflexivity.
  - intros segs H. unfold issue_path.
    destruct (String.eqb_spec (join_dot (map segment_string segs)) ""); [contradiction|reflexivity].
Qed.

(** A schema accepting numbers and reporting a path otherwise. *)
Definition num_schema (v : jval) : StdResult :=
  match v with
  | JNum _ => StdValue v
  | _ => StdIssues [mkStdIssue "Expected number" (Some [PSKey "lines"; PSObj "0"; PSKey "amount"]);
                    mkStdIssue "Invalid input" None]
  end.

Lemma parseSchema_result_witness :
  parseSchema num_schema (JStr "x")
  = PIssues [mkIssue "Expected number" "lines.0.amount"; mkIssue "Invalid input" "root"]
  /\ parseSchema num_schema (JNum 4) = PData (JNum 4).
Proof.
  split.
  - vm_compute. reflexivity.
  - exact (proj1 (parseSchema_result num_schema (JNum 4)) (JNum 4) eq_refl).
Defined.

(** ** error.ts: validation details *)

Lemma issue_path_nonempty : forall p, issue_path p <> "".
Proof.
  intros p. unfold issue_path.
  match goal with |- context [String.eqb ?j ""] => destruct (String.eqb_spec j "") end;
    [discriminate|assumption].
Qed.

(** Only [fromParseResult] fills [validationDetails]: its fields are the
    issues' paths, and [hasValidationDetails] is false for an empty list
    of issues ([Boolean(0)]); every other factory gives no fields and
    [hasValidationDetails() === false]. *)
Theorem validation_fields_by_factory : forall issues st corr ne msg corr' d s,
  getValidationFields (fromParseResult issues st corr) = map path issues
  /\ hasValidationDetails (fromParseResult issues st corr) = negb (Nat.eqb (length issues) 0)
  /\ getValidationFields (fromNetworkError ne) = []
  /\ hasValidationDetails (fromNetworkError ne) = false
  /\ getValidationFields (fromJsonError msg st corr') = []
  /\ hasValidationDetails (fromJsonError msg st corr') = false
  /\ getValidationFields (fromUnexpectedResponse d st corr) = []
  /\ hasValidationDetails (fromUnexpectedResponse d st corr) = false
  /\ getValidationFields (fromHttpResponse st d s) = []
  /\ hasValidationDetails (fromHttpResponse st d s) = false.
Proof.
  intros issues st corr ne msg corr' d s.
  assert (HN : validationDetails (fromNetworkError ne) = None).
  { unfold fromNetworkError. destruct (network_switch (ne_code ne)). reflexivity. }
  assert (HH : validationDetails (fromHttpResponse st d s) = None).
  { unfold fromHttpResponse. destruct (validateErrorResponse d); reflexivity. }
  unfold getValidationFields, hasValidationDetails. rewrite HN, HH.
  repeat split; reflexivity.
Qed.

(** A schema failure of [requestWithSchema] through [parseSchema] is a
    schema mismatch that is not retryable, and its validation fields are
    the schema's issue paths, none of them empty. *)
Theorem requestWithSchema_parseSchema_fields : forall env c endpoint validate_std opts data iss,
  snd (request env c endpoint opts) = Resolved data ->
  validate_std data = StdIssues iss ->
  exists e, snd (requestWithSchema env c endpoint (parseSchema validate_std) opts) = Rejected e
  /\ isSchemaMismatch e = true /\ isRetryable e = false
  /\ getValidationFields e = map (fun i => issue_path (si_path i)) iss
  /\ hasValidationDetails e = negb (Nat.eqb (length iss) 0)
  /\ Forall (fun p => p <> "") (getValidationFields e).
Proof.
  intros env c endpoint validate_std opts data iss Hr Hv.
  unfold requestWithSchema. destruct (request env c endpoint opts) as [req out].
  simpl in Hr. subst out. unfold parseSchema. rewrite Hv.
  eexists. split; [reflexivity|].
  unfold getValidationFields, hasValidationDetails. cbn [validationDetails fromParseResult
    set_validationDetails].
  rewrite map_map, length_map. cbn [path].
  split; [reflexivity|]. split; [reflexivity|]. split; [reflexivity|]. split; [reflexivity|].
  apply Forall_map, Forall_forall. intros i _. apply issue_path_nonempty.
Qed.

Lemma requestWithSchema_parseSchema_fields_witness :
  snd (request token_env sample_client "customers(1)" no_opts) = Resolved (JObj [])
  /\ exists e, snd (requestWithSchema token_env sample_client "customers(1)"
                      (parseSchema num_schema) no_opts) = Rejected e
     /\ getValidationFields e = ["lines.0.amount"; "root"].
Proof.
  split; [reflexivity|].
  destruct (requestWithSchema_parseSchema_fields token_env sample_client "customers(1)"
              num_schema no_opts (JObj []) _ eq_refl eq_refl)
    as [e [He [_ [_ [Hf _]]]]].
  exists e. split; [exact He|]. rewrite Hf. vm_compute. reflexivity.
Defined.
